(** * ggen / ggrama: resource resolution and the generation pipeline

    A shallow embedding of the two entry scripts of the repository,
    [src/ggen/__main__.py] and [src/ggrama/__main__.py], and the properties
    of their configuration layering, search-path resolution and generation
    pipeline.

    - [Py]     : the fragment of the Python runtime the scripts rely on
                 (dynamic values, truthiness, exceptions, [str.format],
                 [pathlib], a file system, object attributes);
    - [Ggen]   : [src/ggen/__main__.py];
    - [Ggrama] : [src/ggrama/__main__.py];
    - the theorems, one group per property. *)

From Stdlib Require Import ZArith String Ascii List.
From Stdlib.Floats Require Import SpecFloat.
From stdpp Require Import base option strings pretty list gmap.

Local Open Scope string_scope.
Local Open Scope Z_scope.

(* ===================================================================== *)
(** * The Python runtime fragment *)
(* ===================================================================== *)

Module Py.

(** ** Dynamic values

    The values that flow through the scripts: what [json.load] produces,
    what [argparse] produces ([None] or a [str]), and [pathlib.Path]
    objects.  A [str] is a sequence of code points; a Rocq [string] holds
    the code points 0..255. *)
#[warnings="-register-all"]
Inductive pyval :=
| VNone
| VBool (b : bool)
| VInt (n : Z)
| VFloat (f : spec_float)
| VStr (s : string)
| VList (items : list pyval)
| VDict (items : list (string * pyval))
| VPath (p : string).

(** [bool(v)]: what [x if v else y] and [if not v] test. *)
Definition truthy (v : pyval) : bool :=
  match v with
  | VNone => false
  | VBool b => b
  | VInt n => negb (n =? 0)
  | VFloat (S754_zero _) => false
  | VFloat _ => true
  | VStr s => negb (String.eqb s "")
  | VList l => match l with [] => false | _ => true end
  | VDict l => match l with [] => false | _ => true end
  | VPath _ => true
  end.

Definition is_none (v : pyval) : bool :=
  match v with VNone => true | _ => false end.

(** A value parsed by [argparse]: [None] when the option is absent. *)
Definition of_arg (a : option string) : pyval :=
  match a with Some s => VStr s | None => VNone end.

(** ** Exceptions

    An f-string message is kept as its fragments: the literal pieces and the
    values interpolated between them. *)
Inductive fragment :=
| Lit (s : string)
| Fmt (v : pyval).

Abbreviation message := (list fragment).

Inductive exn :=
| ValueError (msg : message)
| TypeError
| AttributeError (name : string)
| KeyError (key : string)
| IndexError
| FileNotFoundError (msg : message)
| IsADirectoryError (path : string)
| NotADirectoryError (path : string)
| JSONDecodeError
| ExternalError (who : string)
| NotModelled (what : string).

Inductive result (A : Type) :=
| Ok (a : A)
| Raise (e : exn).
Arguments Ok {A} a.
Arguments Raise {A} e.

#[export] Instance result_ret : MRet result := fun _ a => Ok a.
#[export] Instance result_bind : MBind result := fun _ _ f m =>
  match m with
  | Ok a => f a
  | Raise e => Raise e
  end.

(** ** Strings *)

Fixpoint chars (s : string) : list string :=
  match s with
  | EmptyString => []
  | String c s' => String c EmptyString :: chars s'
  end.

Fixpoint ends_with_slash (s : string) : bool :=
  match s with
  | EmptyString => false
  | String c EmptyString => Ascii.eqb c "/"
  | String _ s' => ends_with_slash s'
  end.

(** [str(v)], as an f-string or [str.format] applies it to a field without
    format specification.  The [repr] of floats and of containers is not
    modelled. *)
Definition py_str (v : pyval) : result string :=
  match v with
  | VNone => Ok "None"
  | VBool true => Ok "True"
  | VBool false => Ok "False"
  | VInt n => Ok (pretty n)
  | VStr s => Ok s
  | VPath p => Ok p
  | VFloat _ => Raise (NotModelled "repr(float)")
  | VList _ => Raise (NotModelled "repr(list)")
  | VDict _ => Raise (NotModelled "repr(dict)")
  end.

(** [' '.join(words)] *)
Fixpoint join_words (words : list string) : string :=
  match words with
  | [] => ""
  | [w] => w
  | w :: ws => w ++ " " ++ join_words ws
  end.

(** [str.isspace] on one code point below 256. *)
Definition is_space (c : ascii) : bool :=
  let n := Z.of_nat (nat_of_ascii c) in
  ((9 <=? n) && (n <=? 13)) || ((28 <=? n) && (n <=? 32))
  || (n =? 133) || (n =? 160).

Fixpoint lstrip (s : string) : string :=
  match s with
  | String c s' => if is_space c then lstrip s' else s
  | EmptyString => EmptyString
  end.

Fixpoint rstrip (s : string) : string :=
  match s with
  | EmptyString => EmptyString
  | String c s' =>
      match rstrip s' with
      | EmptyString => if is_space c then EmptyString else String c EmptyString
      | r => String c r
      end
  end.

(** [s.strip()] *)
Definition strip (s : string) : string := rstrip (lstrip s).

(** ** Iteration and indexing *)

(** The items a [for] loop (or a star unpacking) draws from a value. *)
Definition py_iter (v : pyval) : result (list pyval) :=
  match v with
  | VList l => Ok l
  | VStr s => Ok (VStr <$> chars s)
  | VDict kvs => Ok ((fun kv => VStr kv.1) <$> kvs)
  | _ => Raise TypeError
  end.

Fixpoint dict_get (kvs : list (string * pyval)) (k : string) : option pyval :=
  match kvs with
  | [] => None
  | (k', v) :: rest =>
      match dict_get rest k with
      | Some v' => Some v'
      | None => if String.eqb k' k then Some v else None
      end
  end.

(** [v[k]] for a string key. *)
Definition getitem_key (v : pyval) (k : string) : result pyval :=
  match v with
  | VDict kvs =>
      match dict_get kvs k with
      | Some x => Ok x
      | None => Raise (KeyError k)
      end
  | _ => Raise TypeError
  end.

(** [v[0]] *)
Definition getitem_0 (v : pyval) : result pyval :=
  match v with
  | VList (x :: _) => Ok x
  | VList [] => Raise IndexError
  | VStr (String c _) => Ok (VStr (String c EmptyString))
  | VStr EmptyString => Raise IndexError
  | VDict _ => Raise (KeyError "0")
  | _ => Raise TypeError
  end.

(** [a + b] where [b] is a list, as in [paths + ([p] if p else [])]. *)
Definition add_list (a : pyval) (b : list pyval) : result pyval :=
  match a with
  | VList l => Ok (VList (l ++ b))
  | _ => Raise TypeError
  end.

(** ** [str.format]

    The replacement fields handled are the plain ones: [{}], [{3}] and
    [{name}].  A field with a conversion, a format specification, an
    attribute or index access, or a nested field is outside the model. *)
Inductive numbering :=
| Unset
| Auto (next : nat)
| Manual.

Inductive scan :=
| Text
| SawOpen
| SawClose
| InField (rev_name : list ascii).

Definition is_digit (c : ascii) : bool :=
  let n := nat_of_ascii c in
  (Nat.leb 48 n) && (Nat.leb n 57).

Definition digit_val (c : ascii) : nat := (nat_of_ascii c - 48)%nat.

Definition index_of (name : list ascii) : nat :=
  fold_left (fun acc c => (10 * acc + digit_val c)%nat) name 0%nat.

Definition string_of_chars (l : list ascii) : string :=
  fold_right String EmptyString l.

(** The value of one replacement field, and the numbering state after it. *)
Definition field_value (name : list ascii) (num : numbering)
    (args : list pyval) (kwargs : list (string * pyval))
  : result (pyval * numbering) :=
  match name with
  | [] =>
      match num with
      | Manual => Raise (ValueError [Lit "cannot switch from manual field specification to automatic field numbering"])
      | Unset =>
          match args !! 0%nat with
          | Some v => Ok (v, Auto 1)
          | None => Raise IndexError
          end
      | Auto i =>
          match args !! i with
          | Some v => Ok (v, Auto (S i))
          | None => Raise IndexError
          end
      end
  | _ =>
      if forallb is_digit name then
        match num with
        | Auto _ => Raise (ValueError [Lit "cannot switch from automatic field numbering to manual field specification"])
        | _ =>
            match args !! index_of name with
            | Some v => Ok (v, Manual)
            | None => Raise IndexError
            end
        end
      else
        match dict_get kwargs (string_of_chars name) with
        | Some v => Ok (v, num)
        | None => Raise (KeyError (string_of_chars name))
        end
  end.

Definition special_in_field (c : ascii) : bool :=
  Ascii.eqb c "!" || Ascii.eqb c ":" || Ascii.eqb c "." || Ascii.eqb c "["
  || Ascii.eqb c "{".

Fixpoint format_scan (tmpl : string) (st : scan) (num : numbering)
    (args : list pyval) (kwargs : list (string * pyval)) : result string :=
  match tmpl with
  | EmptyString =>
      match st with
      | Text => Ok ""
      | SawOpen => Raise (ValueError [Lit "Single '{' encountered in format string"])
      | SawClose => Raise (ValueError [Lit "Single '}' encountered in format string"])
      | InField _ => Raise (ValueError [Lit "expected '}' before end of string"])
      end
  | String c rest =>
      let emit_field name :=
        '(v, num') ← field_value name num args kwargs;
        s ← py_str v;
        out ← format_scan rest Text num' args kwargs;
        Ok (s ++ out) in
      match st with
      | Text =>
          if Ascii.eqb c "{" then format_scan rest SawOpen num args kwargs
          else if Ascii.eqb c "}" then format_scan rest SawClose num args kwargs
          else out ← format_scan rest Text num args kwargs; Ok (String c out)
      | SawOpen =>
          if Ascii.eqb c "{" then
            out ← format_scan rest Text num args kwargs; Ok (String c out)
          else if Ascii.eqb c "}" then emit_field []
          else if special_in_field c then Raise (NotModelled "replacement field")
          else format_scan rest (InField [c]) num args kwargs
      | SawClose =>
          if Ascii.eqb c "}" then
            out ← format_scan rest Text num args kwargs; Ok (String c out)
          else Raise (ValueError [Lit "Single '}' encountered in format string"])
      | InField rev_name =>
          if Ascii.eqb c "}" then emit_field (rev rev_name)
          else if special_in_field c then Raise (NotModelled "replacement field")
          else format_scan rest (InField (c :: rev_name)) num args kwargs
      end
  end.

(** [tmpl.format] applied to positional [args] and keyword [kwargs]; only a
    [str] has this method here. *)
Definition format (tmpl : pyval) (args : list pyval)
    (kwargs : list (string * pyval)) : result string :=
  match tmpl with
  | VStr t => format_scan t Text Unset args kwargs
  | _ => Raise (AttributeError "format")
  end.

(** ** Paths and the file system *)

(** [Path(v)]: a [str] or a [Path] is accepted. *)
Definition to_path (v : pyval) : result string :=
  match v with
  | VStr s => Ok s
  | VPath p => Ok p
  | _ => Raise TypeError
  end.

(** pathlib's [/] on the strings of its operands: an absolute right operand
    replaces the left one, otherwise the two are joined by one separator.
    pathlib's normalisation of the operands themselves (collapsing [//],
    dropping [.] components) is not modelled: a path is the string it was
    built from. *)
Definition joinpath (d name : string) : string :=
  if String.eqb name "" then d
  else if String.prefix "/" name then name
  else if String.eqb d "" then name
  else if ends_with_slash d then d ++ name
  else d ++ "/" ++ name.

(** [Path(d) / name] *)
Definition path_div (d name : pyval) : result string :=
  dir ← to_path d;
  match name with
  | VStr s => Ok (joinpath dir s)
  | VPath p => Ok (joinpath dir p)
  | _ => Raise TypeError
  end.

Inductive node :=
| File (content : string)
| Dir.

(** A file system maps a path, as the program writes it, to what is there;
    a path it does not list does not exist.  Links and permissions are not
    modelled.  Reading looks a path up as it is written; creating a file
    also looks at the directories above it. *)
Abbreviation filesystem := (gmap string node).

(** [Path.exists] *)
Definition path_exists (fs : filesystem) (p : string) : bool :=
  match fs !! p with Some _ => true | None => false end.

(** [Path.is_dir] *)
Definition is_dir (fs : filesystem) (p : string) : bool :=
  match fs !! p with Some Dir => true | _ => false end.

(** [open(p, 'r')] followed by [read()] *)
Definition read_text (fs : filesystem) (p : string) : result string :=
  match fs !! p with
  | Some (File c) => Ok c
  | Some Dir => Raise (IsADirectoryError p)
  | None => Raise (FileNotFoundError [Lit p])
  end.

Definition is_file (fs : filesystem) (p : string) : bool :=
  match fs !! p with Some (File _) => true | _ => false end.

(** [p.split('/')]; [cur] is the component being read. *)
Fixpoint components_from (cur p : string) : list string :=
  match p with
  | EmptyString => [cur]
  | String c rest =>
      if Ascii.eqb c "/" then cur :: components_from "" rest
      else components_from (cur ++ String c EmptyString) rest
  end.

Definition components (p : string) : list string := components_from "" p.

(** A component that names an entry of a directory: not empty, not [.]
    and not [..]. *)
Definition names_entry (c : string) : bool :=
  negb (String.eqb c "" || String.eqb c "." || String.eqb c "..").

(** A path, absolute or relative, whose components each name an entry: it
    has no repeated or trailing separator and no [.] or [..], so that the
    directories above it are the texts before its separators. *)
Definition plain_path (p : string) : bool :=
  match components p with
  | [] => false
  | [c] => names_entry c
  | c :: rest => (String.eqb c "" || names_entry c) && forallb names_entry rest
  end.

(** The directories above [p], outermost first: the text before each
    separator of [p].  The root, before a leading separator, is left out;
    so is the working directory of a relative path. *)
Fixpoint ancestors_from (seen p : string) : list string :=
  match p with
  | EmptyString => []
  | String c rest =>
      let above := ancestors_from (seen ++ String c EmptyString) rest in
      if Ascii.eqb c "/" && negb (String.eqb seen "") then seen :: above
      else above
  end.

Definition ancestors (p : string) : list string := ancestors_from "" p.

(** Creating the entry [p], which does not exist: the directory it lies in
    must be one.  The root and the working directory are; for any other,
    a regular file among the directories above [p] gives
    [NotADirectoryError], a missing directory [FileNotFoundError]. *)
Definition create_entry (fs : filesystem) (p : string) : result unit :=
  match last (ancestors p) with
  | None => Ok ()
  | Some parent =>
      if is_dir fs parent then Ok ()
      else if existsb (is_file fs) (ancestors p) then Raise (NotADirectoryError p)
      else Raise (FileNotFoundError [Lit p])
  end.

(** [open(p, 'w')]: what the call raises, if anything.  An existing
    regular file is truncated, a directory is refused, a new file needs
    its directory.  The outcome for a path that is not a [plain_path] is
    outside the model. *)
Definition open_w (fs : filesystem) (p : string) : result unit :=
  if String.eqb p "" then Raise (FileNotFoundError [Lit p])
  else if negb (plain_path p) then Raise (NotModelled "path")
  else
    match fs !! p with
    | Some Dir => Raise (IsADirectoryError p)
    | Some (File _) => Ok ()
    | None => create_entry fs p
    end.

(** [open(p, 'w')] followed by writing [text] *)
Definition write_text (fs : filesystem) (p text : string) : result filesystem :=
  open_w fs p;;
  Ok (<[p := File text]> fs).

(** ** Objects

    An instance of a plain class is its [__dict__].  [hasattr] also sees
    what the class provides: [class_attrs] lists the names found on the
    class (its methods, and what every object inherits), and the three
    names below are the data descriptors of a plain class, which
    [setattr] does not store in the instance. *)
Abbreviation instance := (gmap string pyval).

Definition descriptors : list string := ["__class__"; "__dict__"; "__weakref__"].

Definition mem (k : string) (l : list string) : bool := existsb (String.eqb k) l.

Definition hasattr (class_attrs : list string) (self : instance) (key : string) : bool :=
  match self !! key with
  | Some _ => true
  | None => mem key descriptors || mem key class_attrs
  end.

(** [dict(kvs)]: a later binding of a key replaces an earlier one. *)
Definition dict_of (kvs : list (string * pyval)) : instance :=
  fold_left (fun m kv => <[kv.1 := kv.2]> m) kvs ∅.

(** [setattr(self, key, value)] for a [value] read from JSON. *)
Definition setattr (self : instance) (key : string) (value : pyval) : result instance :=
  if String.eqb key "__class__" then Raise TypeError
  else if String.eqb key "__weakref__" then Raise (AttributeError key)
  else if String.eqb key "__dict__" then
    match value with
    | VDict kvs => Ok (dict_of kvs)
    | _ => Raise TypeError
    end
  else Ok (<[key := value]> self).

(** [self.name] for a name the class does not provide. *)
Definition getattr (self : instance) (name : string) : result pyval :=
  match self !! name with
  | Some v => Ok v
  | None => Raise (AttributeError name)
  end.

(** [self.attr.append(v)] *)
Definition append_to (self : instance) (attr : string) (v : pyval) : result instance :=
  l ← getattr self attr;
  match l with
  | VList items => Ok (<[attr := VList (items ++ [v])]> self)
  | _ => Raise (AttributeError "append")
  end.

(** A [for] loop whose body updates [s] and may raise. *)
Fixpoint for_each {A S : Type} (body : S -> A -> result S) (l : list A) (s : S)
  : result S :=
  match l with
  | [] => Ok s
  | x :: rest => s' ← body s x; for_each body rest s'
  end.

(** ** What the scripts take from outside

    The libraries the scripts call ([json], [llama_cpp]) and the table of
    names every object inherits are not code of the repository. *)
Class Runtime := {
  Grammar : Type;
  Llm : Type;
  (** names every instance has from [object] and from its class namespace
      ([__doc__], [__module__], [__eq__], ...) *)
  object_attrs : list string;
  (** [json.loads] / [json.load]; [None] stands for [JSONDecodeError] *)
  json_loads : string -> option pyval;
  (** [json.dumps(v, indent=...)] *)
  json_dumps : pyval -> option nat -> string;
  (** [LlamaGrammar.from_string(schema, verbose=False)] *)
  grammar_from_string : pyval -> result Grammar;
  (** [LlamaGrammar.from_json(schema)] *)
  grammar_from_json : pyval -> result Grammar;
  (** [Llama(path, ...)] *)
  llama_load : pyval -> result Llm;
  (** [llm(prompt, grammar=grammar, max_tokens=n)] *)
  llama_call : Llm -> string -> Grammar -> Z -> result pyval;
}.

(** [json.load(f)] on the text of [f] *)
Definition json_load `{Runtime} (text : string) : result pyval :=
  match json_loads text with
  | Some v => Ok v
  | None => Raise JSONDecodeError
  end.

(** [json.loads(v)] *)
Definition json_loads_val `{Runtime} (v : pyval) : result pyval :=
  match v with
  | VStr s => json_load s
  | _ => Raise TypeError
  end.

(** The process environment. *)
Record environ := {
  home : string;                        (* what [~] expands to *)
  package_resources : result string;    (* [resources.path(package, 'resources')] *)
  stdin : string;                       (* [sys.stdin.read()] *)
}.

(** [Path(d).expanduser()] *)
Definition expanduser (env : environ) (d : string) : string :=
  match d with
  | String "~" rest =>
      match rest with
      | EmptyString => home env
      | String "/" _ => home env ++ rest
      | _ => d
      end
  | _ => d
  end.

(** ** The parsed command line *)
Record namespace := {
  config_file : list string;
  debug : bool;
  input_file : option string;
  output_file : option string;
  model_name : option string;
  model_path : option string;
  schema_name : option string;
  schema_path : option string;
  prompt_template_file : option string;
  prompt_template_path : option string;
  prompt : list string;
}.

(** ** The effects of a run *)
Record world := {
  files : filesystem;
  stdout : list string;                 (* one entry per [print] *)
  log : list (string * string);         (* level and message *)
}.

Definition prog (A : Type) : Type := world -> result A * world.

#[export] Instance prog_ret : MRet prog := fun _ a w => (Ok a, w).
#[export] Instance prog_bind : MBind prog := fun _ _ f m w =>
  match m w with
  | (Ok a, w') => f a w'
  | (Raise e, w') => (Raise e, w')
  end.

(** A step that only reads the file system. *)
Definition reading {A} (f : filesystem -> result A) : prog A :=
  fun w => (f (files w), w).

(** A step without effect. *)
Definition pure {A} (r : result A) : prog A := fun w => (r, w).

Definition print (text : string) : prog unit :=
  fun w => (Ok (), {| files := files w; stdout := stdout w ++ [text]; log := log w |}).

Definition logger (level text : string) : prog unit :=
  fun w => (Ok (), {| files := files w; stdout := stdout w; log := log w ++ [(level, text)] |}).

Definition write_file (p text : string) : prog unit :=
  fun w =>
    match write_text (files w) p text with
    | Ok fs' => (Ok (), {| files := fs'; stdout := stdout w; log := log w |})
    | Raise e => (Raise e, w)
    end.

(** An optional [str] of the command line when it is truthy, as [if opt:]
    tests it. *)
Definition given (a : option string) : option string :=
  match a with
  | Some s => if String.eqb s "" then None else Some s
  | None => None
  end.

End Py.

(* ===================================================================== *)
(** * src/ggen/__main__.py *)
(* ===================================================================== *)

Module Ggen.
Import Py.

Section Script.
Context `{Runtime}.

(** ** class Config *)

Definition methods : list string :=
  ["__init__"; "load_defaults_from_standard_directories";
   "_add_resources_from_directory"; "load_from_file"].

Definition class_attrs : list string := methods ++ object_attrs.

(** The assignments at the head of [__init__]. *)
Definition defaults : instance :=
  dict_of
    [("model_name", VNone); ("model_path", VNone);
     ("schema_name", VNone); ("schema_path", VNone);
     ("prompt_template_file", VNone); ("prompt_template_path", VNone);
     ("model_paths", VList []); ("schema_paths", VList []);
     ("prompt_template_paths", VList [])].

Definition add_subdir (fs : filesystem) (directory : string)
    (self : instance) (subdir : string) : result instance :=
  let path := joinpath directory subdir in
  if is_dir fs path then
    if String.eqb subdir "models" then append_to self "model_paths" (VPath path)
    else if String.eqb subdir "schemas" then append_to self "schema_paths" (VPath path)
    else if String.eqb subdir "prompt_templates" then
      append_to self "prompt_template_paths" (VPath path)
    else Ok self
  else Ok self.

Definition _add_resources_from_directory (fs : filesystem) (self : instance)
    (directory : string) : result instance :=
  if is_dir fs directory then
    for_each (add_subdir fs directory) ["models"; "schemas"; "prompt_templates"] self
  else Ok self.

Definition standard_dirs : list string :=
  ["/etc/ggrama"; "/usr/share/ggrama"; "/usr/local/share/ggrama";
   "~/.local/ggrama"; "~/.config/gramma"].

Definition load_defaults_from_standard_directories (env : environ)
    (fs : filesystem) (self : instance) : result instance :=
  resources_path ← package_resources env;
  self ← _add_resources_from_directory fs self resources_path;
  for_each (fun self d => _add_resources_from_directory fs self (expanduser env d))
    standard_dirs self.

(** [Config()] *)
Definition Config (env : environ) (fs : filesystem) : result instance :=
  load_defaults_from_standard_directories env fs defaults.

Definition set_item (self : instance) (kv : string * pyval) : result instance :=
  if hasattr class_attrs self kv.1 then setattr self kv.1 kv.2 else Ok self.

Definition load_from_file (fs : filesystem) (self : instance)
    (config_file : string) : result instance :=
  text ← read_text fs config_file;
  data ← json_load text;
  match data with
  | VDict items => for_each set_item items self
  | _ => Raise (AttributeError "items")
  end.

(** ** build_argparser: the defaults it declares

    [argv] holds what the command line gives for each option ([None] for
    an option that is absent).  The parsing of the words themselves, and
    the exits of [argparse] for [-h] and for a malformed command line, are
    not modelled: [main] starts from a command line that parses. *)
Definition parse_args (argv : namespace) : namespace :=
  {| config_file := config_file argv;
     debug := debug argv;
     input_file := input_file argv;
     output_file := output_file argv;
     model_name := model_name argv;
     model_path := model_path argv;
     schema_name := schema_name argv;
     schema_path := schema_path argv;
     prompt_template_file :=
       match prompt_template_file argv with
       | Some t => Some t
       | None => Some "instruct"
       end;
     prompt_template_path := prompt_template_path argv;
     prompt := prompt argv |}.

(** ** The resource locators *)

Fixpoint load_prompt_template_loop (fs : filesystem) (paths : list pyval)
    (prompt_template_paths prompt_template_name : pyval) : result string :=
  match paths with
  | [] => Raise (FileNotFoundError
                   [Lit "Prompt template "; Fmt prompt_template_name;
                    Lit ".txt not found in paths "; Fmt prompt_template_paths])
  | path :: rest =>
      directory ← to_path path;
      name ← py_str prompt_template_name;
      let template_path := joinpath directory (name ++ ".txt") in
      if path_exists fs template_path then read_text fs template_path
      else load_prompt_template_loop fs rest prompt_template_paths prompt_template_name
  end.

Definition load_prompt_template (fs : filesystem)
    (prompt_template_paths prompt_template_name : pyval) : result string :=
  if is_none prompt_template_name then
    Raise (ValueError [Lit "No prompt template name provided"])
  else
    paths ← py_iter prompt_template_paths;
    load_prompt_template_loop fs paths prompt_template_paths prompt_template_name.

(** The result is a [Path]. *)
Fixpoint find_model_path_loop (fs : filesystem) (paths : list pyval)
    (model_paths model_name : pyval) : result string :=
  match paths with
  | [] => Raise (FileNotFoundError
                   [Lit "Model "; Fmt model_name; Lit " not found in paths ";
                    Fmt model_paths])
  | path :: rest =>
      model_path ← path_div path model_name;
      if path_exists fs model_path then Ok model_path
      else find_model_path_loop fs rest model_paths model_name
  end.

Definition find_model_path (fs : filesystem) (model_paths model_name : pyval)
  : result string :=
  if is_none model_name then Raise (ValueError [Lit "No model name provided"])
  else
    paths ← py_iter model_paths;
    find_model_path_loop fs paths model_paths model_name.

Fixpoint load_schema_loop (fs : filesystem) (paths : list pyval)
    (schema_paths schema_name : pyval) : result pyval :=
  match paths with
  | [] => Raise (FileNotFoundError
                   [Lit "Schema "; Fmt schema_name; Lit " not found in paths ";
                    Fmt schema_paths; Lit " and no .gbnf extension file found"])
  | path :: rest =>
      schema_path ← path_div path schema_name;
      if path_exists fs schema_path then
        text ← read_text fs schema_path; json_load text
      else
        directory ← to_path path;
        name ← py_str schema_name;
        let schema_path_with_extension := joinpath directory (name ++ ".gbnf") in
        if path_exists fs schema_path_with_extension then
          text ← read_text fs schema_path_with_extension; Ok (VStr text)
        else load_schema_loop fs rest schema_paths schema_name
  end.

Definition load_schema (fs : filesystem) (schema_paths schema_name : pyval)
  : result pyval :=
  if is_none schema_name then Raise (ValueError [Lit "No schema name provided"])
  else
    paths ← py_iter schema_paths;
    load_schema_loop fs paths schema_paths schema_name.

(** ** The generation pipeline *)

Definition generate_with_grammar (model : Llm)
    (prompt_template prompt input_data : pyval) (grammar : Grammar)
  : result pyval :=
  full_prompt ← format prompt_template []
                  [("prompt", prompt); ("input_data", input_data)];
  response ← llama_call model full_prompt grammar (-1);
  choices ← getitem_key response "choices";
  choice ← getitem_0 choices;
  text ← getitem_key choice "text";
  json_loads_val text.

(** ** main *)

(** [arg if arg else config.field] *)
Definition override (arg : option string) (config : instance) (field : string)
  : result pyval :=
  if truthy (of_arg arg) then Ok (of_arg arg) else getattr config field.

(** The local variables of [main] after its override block. *)
Record selection := {
  sel_model_name : pyval;
  sel_model_path : pyval;
  sel_schema_name : pyval;
  sel_schema_path : pyval;
  sel_prompt_template_file : pyval;
  sel_prompt_template_path : pyval;
}.

Definition overrides (args : namespace) (config : instance) : result selection :=
  model_name ← override (model_name args) config "model_name";
  model_path ← override (model_path args) config "model_path";
  schema_name ← override (schema_name args) config "schema_name";
  schema_path ← override (schema_path args) config "schema_path";
  prompt_template_file ← override (prompt_template_file args) config "prompt_template_file";
  prompt_template_path ← override (prompt_template_path args) config "prompt_template_path";
  Ok {| sel_model_name := model_name; sel_model_path := model_path;
        sel_schema_name := schema_name; sel_schema_path := schema_path;
        sel_prompt_template_file := prompt_template_file;
        sel_prompt_template_path := prompt_template_path |}.

(** [config.field + ([path] if path else [])] *)
Definition search_paths (config : instance) (field : string) (path : pyval)
  : result pyval :=
  paths ← getattr config field;
  add_list paths (if truthy path then [path] else []).

(** The three resources: template text, model path, schema. *)
Definition load_resources (fs : filesystem) (config : instance) (sel : selection)
  : result (string * string * pyval) :=
  template_paths ← search_paths config "prompt_template_paths" (sel_prompt_template_path sel);
  prompt_template ← load_prompt_template fs template_paths (sel_prompt_template_file sel);
  model_paths ← search_paths config "model_paths" (sel_model_path sel);
  model_path ← find_model_path fs model_paths (sel_model_name sel);
  schema_paths ← search_paths config "schema_paths" (sel_schema_path sel);
  schema ← load_schema fs schema_paths (sel_schema_name sel);
  Ok (prompt_template, model_path, schema).

(** [config.load_from_file(f)] for each [f]; an instance attribute of that
    name would shadow the method. *)
Definition load_config_file (fs : filesystem) (config : instance) (f : string)
  : result instance :=
  match config !! "load_from_file" with
  | Some _ => Raise TypeError
  | None => load_from_file fs config f
  end.

(** The tail of [main]: write the result to the output file or to stdout. *)
Definition write_result (args : namespace) (value : pyval) : prog unit :=
  match given (output_file args) with
  | Some out => write_file out (json_dumps value None)
  | None => print (json_dumps value (Some 4%nat))
  end.

Definition main (env : environ) (argv : namespace) : prog Z :=
  let args := parse_args argv in
  config ← reading (Config env);
  config ← reading (fun fs => for_each (load_config_file fs) (config_file args) config);
  sel ← pure (overrides args config);
  input_data ← match given (input_file args) with
                | Some f => reading (fun fs => read_text fs f)
                | None => mret ""
                end;
  let prompt := strip (join_words (prompt args)) in
  if String.eqb prompt "" then
    logger "CRITICAL" "No prompt given!";; mret 1
  else
    '(prompt_template, model_path, schema) ← reading (fun fs => load_resources fs config sel);
    if negb (truthy schema) then
      logger "ERROR" "Schema not provided or not found";; mret 1
    else
      grammar ← pure (grammar_from_string schema);
      llm ← pure (llama_load (VStr model_path));
      value ← pure (generate_with_grammar llm (VStr prompt_template) (VStr prompt)
                      (VStr input_data) grammar);
      write_result args value;;
      mret 0.

End Script.
End Ggen.

(* ===================================================================== *)
(** * src/ggrama/__main__.py *)
(* ===================================================================== *)

Module Ggrama.
Import Py.

Section Script.
Context `{Runtime}.

(** ** class Config *)

Definition methods : list string :=
  ["__init__"; "load_defaults_from_standard_directories";
   "_load_resources_from_directory"; "load_from_file"].

Definition class_attrs : list string := methods ++ object_attrs.

Definition defaults : instance :=
  dict_of
    [("model_name", VNone); ("model_path", VNone);
     ("schema_name", VNone); ("schema_path", VNone);
     ("prompt_template_file", VNone); ("prompt_template_path", VNone);
     ("model_paths", VList []); ("schema_paths", VList []);
     ("prompt_template_paths", VList [])].

(** [getattr(self, f"{subdir}_paths").append(path)] *)
Definition add_subdir (fs : filesystem) (directory : string)
    (self : instance) (subdir : string) : result instance :=
  let path := joinpath directory subdir in
  if is_dir fs path then append_to self (subdir ++ "_paths") (VPath path)
  else Ok self.

Definition _load_resources_from_directory (fs : filesystem) (self : instance)
    (directory : string) : result instance :=
  if is_dir fs directory then
    for_each (add_subdir fs directory) ["models"; "schemas"; "prompt_templates"] self
  else Ok self.

Definition standard_dirs : list string :=
  ["/etc/ggrama"; "/usr/share/ggrama"; "/usr/local/share/ggrama";
   "~/.local/ggrama"; "~/.config/gramma"].

(** Here [package_resources] is [resources.path('your_package_name',
    'resources')]. *)
Definition load_defaults_from_standard_directories (env : environ)
    (fs : filesystem) (self : instance) : result instance :=
  resources_path ← package_resources env;
  self ← _load_resources_from_directory fs self resources_path;
  for_each (fun self d => _load_resources_from_directory fs self (expanduser env d))
    standard_dirs self.

(** [Config()] *)
Definition Config (env : environ) (fs : filesystem) : result instance :=
  load_defaults_from_standard_directories env fs defaults.

Definition set_item (self : instance) (kv : string * pyval) : result instance :=
  if hasattr class_attrs self kv.1 then setattr self kv.1 kv.2 else Ok self.

Definition load_from_file (fs : filesystem) (self : instance)
    (config_file : string) : result instance :=
  text ← read_text fs config_file;
  data ← json_load text;
  match data with
  | VDict items => for_each set_item items self
  | _ => Raise (AttributeError "items")
  end.

(** ** build_argparser: every option defaults to [None] *)
Definition parse_args (argv : namespace) : namespace := argv.

(** ** The resource locators *)

Fixpoint load_prompt_template_loop (fs : filesystem) (paths : list pyval)
    (prompt_template_paths prompt_template_name : pyval) : result string :=
  match paths with
  | [] => Raise (FileNotFoundError
                   [Lit "Prompt template "; Fmt prompt_template_name;
                    Lit " not found in paths "; Fmt prompt_template_paths])
  | path :: rest =>
      template_path ← path_div path prompt_template_name;
      if path_exists fs template_path then read_text fs template_path
      else load_prompt_template_loop fs rest prompt_template_paths prompt_template_name
  end.

Definition load_prompt_template (fs : filesystem)
    (prompt_template_paths prompt_template_name : pyval) : result string :=
  if is_none prompt_template_name then
    Raise (ValueError [Lit "No prompt template name provided"])
  else
    paths ← py_iter prompt_template_paths;
    load_prompt_template_loop fs paths prompt_template_paths prompt_template_name.

(** The result is a [Path]. *)
Fixpoint find_model_path_loop (fs : filesystem) (paths : list pyval)
    (model_paths model_name : pyval) : result string :=
  match paths with
  | [] => Raise (FileNotFoundError
                   [Lit "Model "; Fmt model_name; Lit " not found in paths ";
                    Fmt model_paths])
  | path :: rest =>
      model_path ← path_div path model_name;
      if path_exists fs model_path then Ok model_path
      else find_model_path_loop fs rest model_paths model_name
  end.

Definition find_model_path (fs : filesystem) (model_paths model_name : pyval)
  : result string :=
  if is_none model_name then Raise (ValueError [Lit "No model name provided"])
  else
    paths ← py_iter model_paths;
    find_model_path_loop fs paths model_paths model_name.

Fixpoint load_schema_loop (fs : filesystem) (paths : list pyval)
    (schema_paths schema_name : pyval) : result pyval :=
  match paths with
  | [] => Raise (FileNotFoundError
                   [Lit "Schema "; Fmt schema_name; Lit " not found in paths ";
                    Fmt schema_paths; Lit " and no .gbnf extension file found"])
  | path :: rest =>
      schema_path ← path_div path schema_name;
      if path_exists fs schema_path then
        text ← read_text fs schema_path; json_load text
      else
        directory ← to_path path;
        name ← py_str schema_name;
        let schema_path_with_extension := joinpath directory (name ++ ".gbnf") in
        if path_exists fs schema_path_with_extension then
          text ← read_text fs schema_path_with_extension; json_load text
        else load_schema_loop fs rest schema_paths schema_name
  end.

Definition load_schema (fs : filesystem) (schema_paths schema_name : pyval)
  : result pyval :=
  if is_none schema_name then Raise (ValueError [Lit "No schema name provided"])
  else
    paths ← py_iter schema_paths;
    load_schema_loop fs paths schema_paths schema_name.

(** ** The generation pipeline *)

(** [prompt_template.format( *prompt )]: the prompt is unpacked into
    positional arguments. *)
Definition generate_with_grammar (model : Llm)
    (prompt_template prompt : pyval) (grammar : Grammar) : result pyval :=
  args ← py_iter prompt;
  full_prompt ← format prompt_template args [];
  response ← llama_call model full_prompt grammar (-1);
  choices ← getitem_key response "choices";
  choice ← getitem_0 choices;
  text ← getitem_key choice "text";
  json_loads_val text.

(** ** main *)

Definition override (arg : option string) (config : instance) (field : string)
  : result pyval :=
  if truthy (of_arg arg) then Ok (of_arg arg) else getattr config field.

Record selection := {
  sel_model_name : pyval;
  sel_model_path : pyval;
  sel_schema_name : pyval;
  sel_schema_path : pyval;
  sel_prompt_template_file : pyval;
  sel_prompt_template_path : pyval;
}.

Definition overrides (args : namespace) (config : instance) : result selection :=
  model_name ← override (model_name args) config "model_name";
  model_path ← override (model_path args) config "model_path";
  schema_name ← override (schema_name args) config "schema_name";
  schema_path ← override (schema_path args) config "schema_path";
  prompt_template_file ← override (prompt_template_file args) config "prompt_template_file";
  prompt_template_path ← override (prompt_template_path args) config "prompt_template_path";
  Ok {| sel_model_name := model_name; sel_model_path := model_path;
        sel_schema_name := schema_name; sel_schema_path := schema_path;
        sel_prompt_template_file := prompt_template_file;
        sel_prompt_template_path := prompt_template_path |}.

(** [[path] if path else config.field] *)
Definition search_paths (config : instance) (field : string) (path : pyval)
  : result pyval :=
  if truthy path then Ok (VList [path]) else getattr config field.

Definition load_resources (fs : filesystem) (config : instance) (sel : selection)
  : result (string * string * pyval) :=
  template_paths ← search_paths config "prompt_template_paths" (sel_prompt_template_path sel);
  prompt_template ← load_prompt_template fs template_paths (sel_prompt_template_file sel);
  model_paths ← search_paths config "model_paths" (sel_model_path sel);
  model_path ← find_model_path fs model_paths (sel_model_name sel);
  schema_paths ← search_paths config "schema_paths" (sel_schema_path sel);
  schema ← load_schema fs schema_paths (sel_schema_name sel);
  Ok (prompt_template, model_path, schema).

Definition load_config_file (fs : filesystem) (config : instance) (f : string)
  : result instance :=
  match config !! "load_from_file" with
  | Some _ => Raise TypeError
  | None => load_from_file fs config f
  end.

Definition write_result (args : namespace) (value : pyval) : prog unit :=
  match given (output_file args) with
  | Some out => write_file out (json_dumps value None)
  | None => print (json_dumps value (Some 4%nat))
  end.

Definition main (env : environ) (argv : namespace) : prog Z :=
  let args := parse_args argv in
  config ← reading (Config env);
  config ← reading (fun fs => for_each (load_config_file fs) (config_file args) config);
  sel ← pure (overrides args config);
  prompt ← match given (input_file args) with
            | Some f => reading (fun fs => read_text fs f)
            | None =>
                match prompt args with
                | [] => mret (stdin env)
                | words => mret (join_words words)
                end
            end;
  '(prompt_template, model_path, schema) ← reading (fun fs => load_resources fs config sel);
  if negb (truthy schema) then
    logger "ERROR" "Schema not provided or not found";; mret 1
  else
    grammar ← pure (grammar_from_json schema);
    (* [model_path], a [Path], is always truthy *)
    llm ← pure (llama_load (VPath model_path));
    value ← pure (generate_with_grammar llm (VStr prompt_template) (VStr prompt) grammar);
    write_result args value;;
    mret 0.

End Script.
End Ggrama.

(* ===================================================================== *)
(** * Fixtures: a concrete runtime and concrete file systems *)
(* ===================================================================== *)

Module Demo.
Import Py.

Definition dq : string := String (ascii_of_nat 34) EmptyString.
Definition nl : string := String (ascii_of_nat 10) EmptyString.

(** What [dir(object())] and the class namespace give an instance of a
    plain class under CPython 3.12, the three data descriptors apart. *)
Definition cpython_object_attrs : list string :=
  ["__module__"; "__doc__"; "__delattr__"; "__dir__"; "__eq__"; "__format__";
   "__ge__"; "__getattribute__"; "__getstate__"; "__gt__"; "__hash__";
   "__init__"; "__init_subclass__"; "__le__"; "__lt__"; "__ne__"; "__new__";
   "__reduce__"; "__reduce_ex__"; "__repr__"; "__setattr__"; "__sizeof__";
   "__str__"; "__subclasshook__"].

(** JSON documents of the examples, each with the value [json.loads] gives
    it. *)
Definition doc_empty : string := "{}".
Definition doc_schema : string :=
  "{" ++ dq ++ "type" ++ dq ++ ": " ++ dq ++ "object" ++ dq ++ "}".
Definition doc_shadow : string :=
  "{" ++ dq ++ "load_from_file" ++ dq ++ ": " ++ dq ++ "x" ++ dq ++ "}".
Definition doc_custom_template : string :=
  "{" ++ dq ++ "prompt_template_file" ++ dq ++ ": " ++ dq ++ "custom" ++ dq ++ "}".
Definition doc_names : string :=
  "{" ++ dq ++ "model_name" ++ dq ++ ": " ++ dq ++ "m.gguf" ++ dq ++ ", "
      ++ dq ++ "schema_name" ++ dq ++ ": " ++ dq ++ "answer" ++ dq ++ ", "
      ++ dq ++ "colour" ++ dq ++ ": " ++ dq ++ "blue" ++ dq ++ "}".
Definition doc_paths : string :=
  "{" ++ dq ++ "model_name" ++ dq ++ ": " ++ dq ++ "other.gguf" ++ dq ++ ", "
      ++ dq ++ "model_paths" ++ dq ++ ": [" ++ dq ++ "/srv/models" ++ dq ++ "]}".
Definition doc_answer : string :=
  "{" ++ dq ++ "answer" ++ dq ++ ": " ++ dq ++ "4" ++ dq ++ "}".

Definition documents : list (string * pyval) :=
  [(doc_empty, VDict []);
   (doc_schema, VDict [("type", VStr "object")]);
   (doc_shadow, VDict [("load_from_file", VStr "x")]);
   (doc_custom_template, VDict [("prompt_template_file", VStr "custom")]);
   (doc_names, VDict [("model_name", VStr "m.gguf"); ("schema_name", VStr "answer");
                      ("colour", VStr "blue")]);
   (doc_paths, VDict [("model_name", VStr "other.gguf");
                      ("model_paths", VList [VStr "/srv/models"])]);
   (doc_answer, VDict [("answer", VStr "4")])].

(** A grammar text in the GBNF dialect; it is not a JSON document. *)
Definition gbnf_text : string := "root ::= [0-9]+".

Fixpoint lookup_document (table : list (string * pyval)) (text : string)
  : option pyval :=
  match table with
  | [] => None
  | (t, v) :: rest => if String.eqb t text then Some v else lookup_document rest text
  end.

(** A compact printer of JSON values; it renders neither indentation nor
    escapes, nor floats. *)
Fixpoint dumps (v : pyval) : string :=
  match v with
  | VNone => "null"
  | VBool true => "true"
  | VBool false => "false"
  | VInt n => pretty n
  | VFloat _ => "0.0"
  | VStr s => dq ++ s ++ dq
  | VPath p => dq ++ p ++ dq
  | VList items =>
      "[" ++ (fix go (l : list pyval) : string :=
                match l with
                | [] => ""
                | [x] => dumps x
                | x :: rest => dumps x ++ ", " ++ go rest
                end) items ++ "]"
  | VDict items =>
      "{" ++ (fix go (l : list (string * pyval)) : string :=
                match l with
                | [] => ""
                | [(k, x)] => dq ++ k ++ dq ++ ": " ++ dumps x
                | (k, x) :: rest => dq ++ k ++ dq ++ ": " ++ dumps x ++ ", " ++ go rest
                end) items ++ "}"
  end.

(** A runtime that reads the documents above (and rejects any other text)
    and whose model answers every prompt with [reply]. *)
Definition runtime (reply : string) : Runtime :=
  {| Grammar := pyval;
     Llm := string;
     object_attrs := cpython_object_attrs;
     json_loads := lookup_document documents;
     json_dumps := fun v _ => dumps v;
     grammar_from_string := fun schema => Ok schema;
     grammar_from_json := fun schema => Ok schema;
     llama_load := fun p =>
       match p with
       | VStr s => Ok s
       | VPath s => Ok s
       | _ => Raise TypeError
       end;
     llama_call := fun _ _ _ _ =>
       Ok (VDict [("choices", VList [VDict [("text", VStr reply)]])]) |}.

Definition fs_of (entries : list (string * node)) : filesystem :=
  fold_left (fun m e => <[e.1 := e.2]> m) entries ∅.

Definition env : environ :=
  {| home := "/home/u"; package_resources := Ok "/pkg/ggen/resources"; stdin := "" |}.

Definition no_args : namespace :=
  {| config_file := []; debug := false; input_file := None; output_file := None;
     model_name := None; model_path := None; schema_name := None;
     schema_path := None; prompt_template_file := None;
     prompt_template_path := None; prompt := [] |}.

(** The model answers with a JSON document / with text that is not JSON. *)
Definition rt : Runtime := runtime doc_answer.
Definition rt_malformed : Runtime := runtime "answer: 4".

(** [/a] holds only the grammar file, the later [/b] only the bare file. *)
Definition fs_order : filesystem :=
  fs_of [("/a/answer.gbnf", File gbnf_text); ("/b/answer", File doc_schema)].

(** Only [answer.gbnf] exists. *)
Definition fs_gbnf_only : filesystem :=
  fs_of [("/s/answer.gbnf", File gbnf_text)].

(** One directory stores the template under its bare name, the other with
    the [.txt] suffix. *)
Definition fs_templates : filesystem :=
  fs_of [("/t1/instruct", File "bare: {prompt}");
         ("/t2/instruct.txt", File "txt: {prompt}")].

(** The template, prompt and rendering of the specification's example. *)
Definition template_qa : string :=
  "Q: {prompt}" ++ nl ++ "CTX: {input_data}" ++ nl ++ "A:".
Definition rendered_qa : string :=
  "Q: capital of France?" ++ nl ++ "CTX: " ++ nl ++ "A:".

(** A machine with the bundled resources, one standard directory with a
    model and a schema, a directory [/opt/models] with a model of the same
    name, and configuration files. *)
Definition fs_machine : filesystem :=
  fs_of [("/pkg/ggen/resources", Dir);
         ("/pkg/ggen/resources/prompt_templates", Dir);
         ("/pkg/ggen/resources/prompt_templates/instruct.txt", File template_qa);
         ("/pkg/ggen/resources/prompt_templates/instruct", File template_qa);
         ("/usr/share/ggrama", Dir);
         ("/usr/share/ggrama/models", Dir);
         ("/usr/share/ggrama/models/m.gguf", File "weights A");
         ("/usr/share/ggrama/schemas", Dir);
         ("/usr/share/ggrama/schemas/answer", File doc_schema);
         ("/home/u/.config/gramma", Dir);
         ("/home/u/.config/gramma/models", File "not a directory");
         ("/opt/models", Dir);
         ("/opt/models/m.gguf", File "weights B");
         ("/c/names.json", File doc_names);
         ("/c/paths.json", File doc_paths);
         ("/c/shadow.json", File doc_shadow);
         ("/c/template.json", File doc_custom_template)].

Definition world_of (fs : filesystem) : world :=
  {| files := fs; stdout := []; log := [] |}.

(** [-c /c/names.json 2+2=] *)
Definition args_ask : namespace :=
  {| config_file := ["/c/names.json"]; debug := false; input_file := None;
     output_file := None; model_name := None; model_path := None;
     schema_name := None; schema_path := None; prompt_template_file := None;
     prompt_template_path := None; prompt := ["2+2="] |}.

(** [-m m.gguf -M /opt/models -s answer 2+2=] *)
Definition args_model_dir : namespace :=
  {| config_file := []; debug := false; input_file := None;
     output_file := None; model_name := Some "m.gguf"; model_path := Some "/opt/models";
     schema_name := Some "answer"; schema_path := None; prompt_template_file := None;
     prompt_template_path := None; prompt := ["2+2="] |}.

(** [-c /c/names.json -c /c/template.json -m ""  2+2=]: an empty model
    name on the command line, no [-t]. *)
Definition args_empty_model : namespace :=
  {| config_file := ["/c/names.json"; "/c/template.json"]; debug := false;
     input_file := None; output_file := None; model_name := Some "";
     model_path := None; schema_name := None; schema_path := None;
     prompt_template_file := None; prompt_template_path := None;
     prompt := ["2+2="] |}.

(** The configuration ggen builds from the defaults alone on that machine. *)
Definition config_machine : instance :=
  match Ggen.Config env fs_machine with
  | Ok c => c
  | Raise _ => ∅
  end.

(** ... and after [/c/names.json] was loaded over it. *)
Definition config_ask : instance :=
  match for_each (Ggen.load_config_file (H := rt) fs_machine)
          (config_file args_ask) config_machine with
  | Ok c => c
  | Raise _ => ∅
  end.

Definition sel_ask : Ggen.selection :=
  {| Ggen.sel_model_name := VStr "m.gguf";
     Ggen.sel_model_path := VNone;
     Ggen.sel_schema_name := VStr "answer";
     Ggen.sel_schema_path := VNone;
     Ggen.sel_prompt_template_file := VStr "instruct";
     Ggen.sel_prompt_template_path := VNone |}.

Definition prompt_ask : string := "Q: 2+2=" ++ nl ++ "CTX: " ++ nl ++ "A:".

(** [-i /c/names.json] followed by blank positional words. *)
Definition args_blank : namespace :=
  {| config_file := []; debug := false; input_file := Some "/c/names.json";
     output_file := None; model_name := None; model_path := None;
     schema_name := None; schema_path := None; prompt_template_file := None;
     prompt_template_path := None; prompt := [" "; ""] |}.

Definition sel_blank : Ggen.selection :=
  {| Ggen.sel_model_name := VNone;
     Ggen.sel_model_path := VNone;
     Ggen.sel_schema_name := VNone;
     Ggen.sel_schema_path := VNone;
     Ggen.sel_prompt_template_file := VStr "instruct";
     Ggen.sel_prompt_template_path := VNone |}.

(** The machine with the empty JSON object as its schema [answer]. *)
Definition fs_empty_schema : filesystem :=
  <["/usr/share/ggrama/schemas/answer" := File doc_empty]> fs_machine.

(** [-c /c/names.json -o /out/result.json 2+2=] *)
Definition args_ask_out : namespace :=
  {| config_file := ["/c/names.json"]; debug := false; input_file := None;
     output_file := Some "/out/result.json"; model_name := None;
     model_path := None; schema_name := None; schema_path := None;
     prompt_template_file := None; prompt_template_path := None;
     prompt := ["2+2="] |}.

(** A grammar stored under the bare name, beside its [.gbnf] copy. *)
Definition fs_grammar_as_bare : filesystem :=
  fs_of [("/g/answer", File gbnf_text); ("/g/answer.gbnf", File gbnf_text)].

(** The machine with a directory [/out] for results. *)
Definition fs_out : filesystem := <["/out" := Dir]> fs_machine.

(** [-c /c/names.json -o /c/names.json/result.json 2+2=]: the directory
    named for the result is a regular file. *)
Definition args_ask_under_file : namespace :=
  {| config_file := ["/c/names.json"]; debug := false; input_file := None;
     output_file := Some "/c/names.json/result.json"; model_name := None;
     model_path := None; schema_name := None; schema_path := None;
     prompt_template_file := None; prompt_template_path := None;
     prompt := ["2+2="] |}.

(** [-c /c/names.json -o /opt/models 2+2=]: the output path is a
    directory. *)
Definition args_ask_into_dir : namespace :=
  {| config_file := ["/c/names.json"]; debug := false; input_file := None;
     output_file := Some "/opt/models"; model_name := None;
     model_path := None; schema_name := None; schema_path := None;
     prompt_template_file := None; prompt_template_path := None;
     prompt := ["2+2="] |}.

(** [-c /c/names.json -c /c/template.json -m cli.gguf -M /opt/models -s E
    -t brief 2+2=], where [E] is the empty string: two names that the
    configuration files set as well, one of them empty on the command
    line, and a template name. *)
Definition args_layers : namespace :=
  {| config_file := ["/c/names.json"; "/c/template.json"]; debug := false;
     input_file := None; output_file := None; model_name := Some "cli.gguf";
     model_path := Some "/opt/models"; schema_name := Some "";
     schema_path := None; prompt_template_file := Some "brief";
     prompt_template_path := None; prompt := ["2+2="] |}.

(** The configuration of the machine after [/c/names.json] and
    [/c/template.json] were loaded over it. *)
Definition config_layers : instance :=
  match for_each (Ggen.load_config_file (H := rt) fs_machine)
          (config_file args_layers) config_machine with
  | Ok c => c
  | Raise _ => ∅
  end.

(** A machine for ggrama: none of the standard directories exists; a
    template with two positional fields, a model, a JSON schema and a
    prompt file lie in directories of their own. *)
Definition fs_prompt_file : filesystem :=
  fs_of [("/t", Dir); ("/t/say", File "Say: {0}{1}");
         ("/m", Dir); ("/m/m.gguf", File "weights");
         ("/s", Dir); ("/s/answer", File doc_schema);
         ("/in", Dir); ("/in/prompt.txt", File "hi")].

(** [-i /in/prompt.txt -t say -T /t -m m.gguf -M /m -s answer -S /s] *)
Definition args_prompt_file : namespace :=
  {| config_file := []; debug := false; input_file := Some "/in/prompt.txt";
     output_file := None; model_name := Some "m.gguf"; model_path := Some "/m";
     schema_name := Some "answer"; schema_path := Some "/s";
     prompt_template_file := Some "say"; prompt_template_path := Some "/t";
     prompt := [] |}.

(** A runtime whose model answers with the prompt it was sent, as a JSON
    string. *)
Definition rt_echo : Runtime :=
  {| Grammar := pyval;
     Llm := string;
     object_attrs := cpython_object_attrs;
     json_loads := lookup_document ((dq ++ "Say: hi" ++ dq, VStr "Say: hi") :: documents);
     json_dumps := fun v _ => dumps v;
     grammar_from_string := fun schema => Ok schema;
     grammar_from_json := fun schema => Ok schema;
     llama_load := fun p =>
       match p with
       | VStr s => Ok s
       | VPath s => Ok s
       | _ => Raise TypeError
       end;
     llama_call := fun _ full_prompt _ _ =>
       Ok (VDict [("choices", VList [VDict [("text", VStr (dq ++ full_prompt ++ dq))]])]) |}.

End Demo.

(* ===================================================================== *)
(** * Vocabulary of the properties *)
(* ===================================================================== *)

Import Py.

(** [v] is a directory entry of a search-path list: a [str] or a [Path]. *)
Definition names_dir (v : pyval) (d : string) : Prop := to_path v = Ok d.

(** The first candidate path that exists. *)
Fixpoint first_existing (fs : filesystem) (candidates : list string) : option string :=
  match candidates with
  | [] => None
  | p :: rest => if path_exists fs p then Some p else first_existing fs rest
  end.

(** A directory that holds neither the bare nor the suffixed schema file. *)
Definition holds_no_schema (fs : filesystem) (name d : string) : Prop :=
  path_exists fs (joinpath d name) = false /\
  path_exists fs (joinpath d (name ++ ".gbnf")) = false.

(** The layering the specification describes, with what [if arg] tests: a
    command-line value that is given and not empty, else the configured
    value. *)
Definition cli_else_config (cli : option string) (configured : pyval) : pyval :=
  match given cli with
  | Some s => VStr s
  | None => configured
  end.

(** The three list-valued fields of a configuration. *)
Definition search_path_fields : list string :=
  ["model_paths"; "schema_paths"; "prompt_template_paths"].

(** Every entry of the three search-path lists is a [Path] to a directory
    of [fs]. *)
Definition only_directories (fs : filesystem) (c : instance) : Prop :=
  forall field, field ∈ search_path_fields ->
    exists entries,
      c !! field = Some (VList entries)
      /\ Forall (fun v => exists p, v = VPath p /\ is_dir fs p = true) entries.

(** The nine fields of a configuration. *)
Definition fields : list string :=
  ["model_name"; "model_path"; "schema_name"; "schema_path";
   "prompt_template_file"; "prompt_template_path";
   "model_paths"; "schema_paths"; "prompt_template_paths"].

(** The value a key holds after the documents [docs] were loaded in this
    order over [init]: the one of the last document that sets the key. *)
Fixpoint last_setting (docs : list (list (string * pyval))) (k : string)
    (init : option pyval) : option pyval :=
  match docs with
  | [] => init
  | items :: rest =>
      last_setting rest k
        (match dict_get items k with Some v => Some v | None => init end)
  end.

(** [f] is a readable file whose text is the JSON object [items]. *)
Definition loads_as `{Runtime} (fs : filesystem) (f : string)
    (items : list (string * pyval)) : Prop :=
  exists text, read_text fs f = Ok text /\ json_loads text = Some (VDict items).

(** The body of [load_from_file]'s loop, for a class with the attributes
    [ca]. *)
Definition set_item_of (ca : list string) (self : instance) (kv : string * pyval)
  : result instance :=
  if hasattr ca self kv.1 then setattr self kv.1 kv.2 else Ok self.

(** [config.load_from_file(f)], for a class with the attributes [ca]. *)
Definition load_file_of `{Runtime} (ca : list string) (fs : filesystem)
    (config : instance) (f : string) : result instance :=
  match config !! "load_from_file" with
  | Some _ => Raise TypeError
  | None =>
      text ← read_text fs f;
      data ← json_load text;
      match data with
      | VDict items => for_each (set_item_of ca) items config
      | _ => Raise (AttributeError "items")
      end
  end.

(** A key that is one of the nine fields, or names no attribute at all. *)
Definition plain_key (ca : list string) (self : instance) (k : string) : Prop :=
  k ∈ fields \/ hasattr ca self k = false.

(** The instance has the attributes the assignments of [__init__] gave it. *)
Definition same_attributes (c : instance) : Prop :=
  forall k, is_Some (c !! k) <-> is_Some (Ggen.defaults !! k).

(** The run of ggen's [main] gets as far as the call of
    [generate_with_grammar], with these arguments. *)
Definition reaches_generation `{Runtime} (env : environ) (argv : namespace)
    (w : world) (llm : Llm) (template prompt input_data : string)
    (grammar : Grammar) : Prop :=
  exists config0 config sel model_path schema,
    Ggen.Config env (files w) = Ok config0
    /\ for_each (Ggen.load_config_file (files w))
         (config_file (Ggen.parse_args argv)) config0 = Ok config
    /\ Ggen.overrides (Ggen.parse_args argv) config = Ok sel
    /\ match given (input_file (Ggen.parse_args argv)) with
       | Some f => read_text (files w) f
       | None => Ok ""
       end = Ok input_data
    /\ prompt = strip (join_words (Py.prompt (Ggen.parse_args argv)))
    /\ String.eqb prompt "" = false
    /\ Ggen.load_resources (files w) config sel = Ok (template, model_path, schema)
    /\ truthy schema = true
    /\ grammar_from_string schema = Ok grammar
    /\ llama_load (VStr model_path) = Ok llm.

(** [response['choices'][0]['text']] *)
Definition response_text (response : pyval) : result pyval :=
  choices ← getitem_key response "choices";
  choice ← getitem_0 choices;
  getitem_key choice "text".

(** The directories [Config()] scans, in scanning order. *)
Definition default_dirs (env : environ) (resources_path : string) : list string :=
  resources_path :: (expanduser env <$> Ggen.standard_dirs).

(** What the scan of directory [d] adds to the list of [subdir]. *)
Definition subdir_entry (fs : filesystem) (subdir d : string) : list pyval :=
  if is_dir fs d && is_dir fs (joinpath d subdir)
  then [VPath (joinpath d subdir)] else [].

(** The entries a scan of [dirs] adds to the list of [subdir], in order. *)
Definition existing_subdirs (fs : filesystem) (subdir : string)
    (dirs : list string) : list pyval :=
  List.flat_map (subdir_entry fs subdir) dirs.

(** The three lists of [c] are [lm], [ls] and [lt], and its other
    attributes are the ones [__init__] assigned. *)
Definition holds_lists (c : instance) (lm ls lt : list pyval) : Prop :=
  c !! "model_paths" = Some (VList lm)
  /\ c !! "schema_paths" = Some (VList ls)
  /\ c !! "prompt_template_paths" = Some (VList lt)
  /\ forall k, k ∉ search_path_fields -> c !! k = Ggen.defaults !! k.

(** [d] is a directory with a [models], [schemas] or [prompt_templates]
    directory in it. *)
Definition has_resource_subdir (fs : filesystem) (d : string) : bool :=
  is_dir fs d
  && (is_dir fs (joinpath d "models") || is_dir fs (joinpath d "schemas")
      || is_dir fs (joinpath d "prompt_templates")).

(** The outcome of ggrama's constructor over the scanned directories:
    the plain assignments when none has a resource subdirectory, an
    [AttributeError] otherwise. *)
Definition ggrama_scan_outcome (fs : filesystem) (dirs : list string)
    (r : result instance) : Prop :=
  match r with
  | Ok c => c = Ggrama.defaults /\ existsb (has_resource_subdir fs) dirs = false
  | Raise e => existsb (has_resource_subdir fs) dirs = true
               /\ exists attr, e = AttributeError attr
  end.

(** Between [w] and [w'] one record was logged and nothing else changed. *)
Definition only_logged (w w' : world) : Prop :=
  files w' = files w /\ stdout w' = stdout w
  /\ exists entry, log w' = (log w ++ [entry])%list.

(** Between [w] and [w'] one JSON value was written, to the output file
    when the command line names one and to standard output otherwise, and
    nothing else changed. *)
Definition wrote_result `{Runtime} (argv : namespace) (w w' : world) : Prop :=
  exists value : pyval,
    log w' = log w
    /\ match given (output_file argv) with
       | Some out =>
           files w' = <[out := File (json_dumps value None)]> (files w)
           /\ stdout w' = stdout w
       | None =>
           files w' = files w
           /\ stdout w' = (stdout w ++ [json_dumps value (Some 4%nat)])%list
       end.

(** The three ways a run can end.  Nothing is said of a run that leaves
    the modelled fragment of Python ([NotModelled]). *)
Definition run_outcome `{Runtime} (argv : namespace) (w : world)
    (r : result Z * world) : Prop :=
  match r with
  | (Raise (NotModelled _), _) => True
  | (Raise _, w') => w' = w
  | (Ok code, w') =>
      (code = 1 /\ only_logged w w') \/ (code = 0 /\ wrote_result argv w w')
  end.

(** The output path of the command line, when there is one, is a
    [plain_path]. *)
Definition output_is_plain (argv : namespace) : Prop :=
  match given (output_file argv) with
  | Some out => plain_path out = true
  | None => True
  end.

(** [w] with one more log record. *)
Definition logging (w : world) (level text : string) : world :=
  {| files := files w; stdout := stdout w; log := (log w ++ [(level, text)])%list |}.

(** The run of ggen's [main] gets past the configuration and the reading
    of the input file, which holds [input_data]. *)
Definition reads_inputs `{Runtime} (env : environ) (argv : namespace)
    (w : world) (config : instance) (sel : Ggen.selection)
    (input_data : string) : Prop :=
  exists config0,
    Ggen.Config env (files w) = Ok config0
    /\ for_each (Ggen.load_config_file (files w))
         (config_file (Ggen.parse_args argv)) config0 = Ok config
    /\ Ggen.overrides (Ggen.parse_args argv) config = Ok sel
    /\ match given (input_file (Ggen.parse_args argv)) with
       | Some f => read_text (files w) f
       | None => Ok ""
       end = Ok input_data.

(** A text without [{] and [}]. *)
Fixpoint no_braces (s : string) : bool :=
  match s with
  | EmptyString => true
  | String c rest =>
      negb (Ascii.eqb c "{") && negb (Ascii.eqb c "}") && no_braces rest
  end.

(** What [generate_with_grammar] does with the rendered prompt: the call
    of the model, [response['choices'][0]['text']] and [json.loads]. *)
Definition ask_model `{Runtime} (model : Llm) (full_prompt : string)
    (grammar : Grammar) : result pyval :=
  response ← llama_call model full_prompt grammar (-1);
  choices ← getitem_key response "choices";
  choice ← getitem_0 choices;
  text ← getitem_key choice "text";
  json_loads_val text.

(** Every key of the JSON object [items] is a field of the configuration
    or names no attribute of [self], for the classes of both scripts. *)
Definition plain_document `{Runtime} (self : instance)
    (items : list (string * pyval)) : Prop :=
  Forall (fun kv : string * pyval =>
            plain_key Ggen.class_attrs self kv.1
            /\ plain_key Ggrama.class_attrs self kv.1) items.

(** No key is set by both documents. *)
Definition disjoint_keys (items1 items2 : list (string * pyval)) : Prop :=
  forall k v1 v2, (k, v1) ∈ items1 -> (k, v2) ∈ items2 -> False.

(** The command line [argv] with other positional words. *)
Definition with_prompt (argv : namespace) (words : list string) : namespace :=
  {| config_file := config_file argv;
     debug := debug argv;
     input_file := input_file argv;
     output_file := output_file argv;
     model_name := model_name argv;
     model_path := model_path argv;
     schema_name := schema_name argv;
     schema_path := schema_path argv;
     prompt_template_file := prompt_template_file argv;
     prompt_template_path := prompt_template_path argv;
     prompt := words |}.

(** The environment [env] with another standard input. *)
Definition with_stdin (env : environ) (text : string) : environ :=
  {| home := home env; package_resources := package_resources env; stdin := text |}.

(** How a run ends that has the result [value] in hand and whose output
    path, if any, is a [plain_path].  An output path that is a directory
    gives [IsADirectoryError]; one that is a regular file, or that does
    not exist and lies in a directory, holds [json.dump(value)] afterwards
    and the exit code is 0; one that does not exist and whose directory
    is missing or is not a directory gives the exception of
    [create_entry].  A run that raises leaves the world as it was.
    Without an output file, [json.dumps(value, indent=4)] is printed and
    the exit code is 0. *)
Definition after_writing `{Runtime} (argv : namespace) (value : pyval)
    (w : world) : result Z * world :=
  match given (output_file argv) with
  | Some out =>
      let written :=
        (Ok 0, {| files := <[out := File (json_dumps value None)]> (files w);
                  stdout := stdout w; log := log w |}) in
      match files w !! out with
      | Some Dir => (Raise (IsADirectoryError out), w)
      | Some (File _) => written
      | None =>
          match create_entry (files w) out with
          | Ok _ => written
          | Raise e => (Raise e, w)
          end
      end
  | None =>
      (Ok 0, {| files := files w;
                stdout := (stdout w ++ [json_dumps value (Some 4%nat)])%list;
                log := log w |})
  end.

(** The run of ggrama's [main] gets as far as the call of
    [generate_with_grammar] whatever its prompt is: the configuration is
    built and loaded, the three resources are resolved, the schema is
    truthy, and the grammar and the model are loaded. *)
Definition ggrama_ready `{Runtime} (env : environ) (argv : namespace)
    (w : world) (llm : Llm) (template : string) (grammar : Grammar) : Prop :=
  exists config0 config sel model_path schema,
    Ggrama.Config env (files w) = Ok config0
    /\ for_each (Ggrama.load_config_file (files w))
         (config_file (Ggrama.parse_args argv)) config0 = Ok config
    /\ Ggrama.overrides (Ggrama.parse_args argv) config = Ok sel
    /\ Ggrama.load_resources (files w) config sel = Ok (template, model_path, schema)
    /\ truthy schema = true
    /\ grammar_from_json schema = Ok grammar
    /\ llama_load (VPath model_path) = Ok llm.

(* ===================================================================== *)
(** * Properties *)
(* ===================================================================== *)

(** Evaluation of the model on closed inputs. *)
Ltac run := reflexivity.

(** ** The runtime model on small inputs *)

Example format_escaped_braces :
  format (VStr "{{{prompt}}}") [] [("prompt", VStr "p")] = Ok "{p}".
Proof. run. Qed.

Example format_positional :
  format (VStr "Say {}{}{0}") [VStr "h"; VStr "i"] [] =
    Raise (ValueError [Lit "cannot switch from automatic field numbering to manual field specification"])
  /\ format (VStr "Say {1}{0}") [VStr "h"; VStr "i"] [] = Ok "Say ih"
  /\ format (VStr "Say {}") [] [] = Raise IndexError.
Proof. repeat split; run. Qed.

Example format_unbalanced :
  format (VStr "a } b") [] [] = Raise (ValueError [Lit "Single '}' encountered in format string"])
  /\ format (VStr "a {b") [] [] = Raise (ValueError [Lit "expected '}' before end of string"])
  /\ format (VStr "{missing}") [] [("prompt", VStr "p")] = Raise (KeyError "missing").
Proof. repeat split; run. Qed.

Example strip_and_join :
  strip (join_words ["  2+2="; "?"; " "]) = "2+2= ?"
  /\ strip (join_words []) = ""
  /\ strip (join_words [" "; Demo.nl]) = "".
Proof. repeat split; run. Qed.

Example joinpath_cases :
  joinpath "/etc/ggrama" "models" = "/etc/ggrama/models"
  /\ joinpath "/etc/ggrama/" "models" = "/etc/ggrama/models"
  /\ joinpath "/etc/ggrama" "/abs/answer" = "/abs/answer"
  /\ expanduser Demo.env "~/.config/gramma" = "/home/u/.config/gramma".
Proof. repeat split; run. Qed.

Example plain_path_cases :
  (plain_path <$> ["/out/result.json"; "result.json"; "out/result.json"; "/r"])
    = [true; true; true; true]
  /\ (plain_path <$> [""; "/"; "/out/"; "/out//r"; "./r"; "/out/../r"; "out/."])
    = [false; false; false; false; false; false; false].
Proof. split; run. Qed.

Example ancestors_cases :
  ancestors "/out/sub/result.json" = ["/out"; "/out/sub"]
  /\ ancestors "out/result.json" = ["out"]
  /\ ancestors "/result.json" = []
  /\ ancestors "result.json" = [].
Proof. repeat split; run. Qed.

Example truthiness :
  truthy (VStr "") = false /\ truthy (VList []) = false
  /\ truthy (VStr "0") = true /\ truthy (VPath "") = true.
Proof. repeat split; run. Qed.

(** ** Shared lemmas *)

Lemma path_div_str v d name :
  names_dir v d -> path_div v (VStr name) = Ok (joinpath d name).
Proof. unfold names_dir, path_div. intros ->. reflexivity. Qed.

Lemma names_dir_str d : names_dir (VStr d) d.
Proof. reflexivity. Qed.

Lemma names_dir_path d : names_dir (VPath d) d.
Proof. reflexivity. Qed.

Lemma ggen_template_loop fs paths dirs all name :
  Forall2 names_dir paths dirs ->
  Ggen.load_prompt_template_loop fs paths all (VStr name) =
    match first_existing fs ((fun d => joinpath d (name ++ ".txt")) <$> dirs) with
    | Some p => read_text fs p
    | None => Raise (FileNotFoundError
                       [Lit "Prompt template "; Fmt (VStr name);
                        Lit ".txt not found in paths "; Fmt all])
    end.
Proof.
  induction 1 as [|v d paths dirs Hv _ IH]; [reflexivity|].
  cbn [Ggen.load_prompt_template_loop fmap list_fmap first_existing].
  rewrite Hv. cbn [mbind result_bind py_str].
  destruct (path_exists fs (joinpath d (name ++ ".txt"))); [reflexivity|apply IH].
Qed.

Lemma ggrama_template_loop fs paths dirs all name :
  Forall2 names_dir paths dirs ->
  Ggrama.load_prompt_template_loop fs paths all (VStr name) =
    match first_existing fs ((fun d => joinpath d name) <$> dirs) with
    | Some p => read_text fs p
    | None => Raise (FileNotFoundError
                       [Lit "Prompt template "; Fmt (VStr name);
                        Lit " not found in paths "; Fmt all])
    end.
Proof.
  induction 1 as [|v d paths dirs Hv _ IH]; [reflexivity|].
  cbn [Ggrama.load_prompt_template_loop fmap list_fmap first_existing].
  rewrite (path_div_str _ _ _ Hv). cbn [mbind result_bind].
  destruct (path_exists fs (joinpath d name)); [reflexivity|apply IH].
Qed.

Lemma ggen_schema_step `{Runtime} fs v d rest all name :
  names_dir v d ->
  Ggen.load_schema_loop fs (v :: rest) all (VStr name) =
    if path_exists fs (joinpath d name) then
      text ← read_text fs (joinpath d name); json_load text
    else if path_exists fs (joinpath d (name ++ ".gbnf")) then
      text ← read_text fs (joinpath d (name ++ ".gbnf")); Ok (VStr text)
    else Ggen.load_schema_loop fs rest all (VStr name).
Proof.
  intros Hv. cbn [Ggen.load_schema_loop].
  rewrite (path_div_str _ _ _ Hv). cbn [mbind result_bind].
  destruct (path_exists fs (joinpath d name)); [reflexivity|].
  rewrite Hv. reflexivity.
Qed.

Lemma ggrama_schema_step `{Runtime} fs v d rest all name :
  names_dir v d ->
  Ggrama.load_schema_loop fs (v :: rest) all (VStr name) =
    if path_exists fs (joinpath d name) then
      text ← read_text fs (joinpath d name); json_load text
    else if path_exists fs (joinpath d (name ++ ".gbnf")) then
      text ← read_text fs (joinpath d (name ++ ".gbnf")); json_load text
    else Ggrama.load_schema_loop fs rest all (VStr name).
Proof.
  intros Hv. cbn [Ggrama.load_schema_loop].
  rewrite (path_div_str _ _ _ Hv). cbn [mbind result_bind].
  destruct (path_exists fs (joinpath d name)); [reflexivity|].
  rewrite Hv. reflexivity.
Qed.

Lemma ggen_schema_skip `{Runtime} fs pre dpre rest all name :
  Forall2 names_dir pre dpre ->
  Forall (holds_no_schema fs name) dpre ->
  Ggen.load_schema_loop fs (pre ++ rest) all (VStr name) =
  Ggen.load_schema_loop fs rest all (VStr name).
Proof.
  induction 1 as [|v d pre dpre Hv _ IH]; intros Hno; [reflexivity|].
  inversion Hno as [|? ? [Hb Hs] Hno']; subst.
  rewrite <- app_comm_cons, (ggen_schema_step _ _ _ _ _ _ Hv), Hb, Hs.
  apply IH, Hno'.
Qed.

Lemma ggrama_schema_skip `{Runtime} fs pre dpre rest all name :
  Forall2 names_dir pre dpre ->
  Forall (holds_no_schema fs name) dpre ->
  Ggrama.load_schema_loop fs (pre ++ rest) all (VStr name) =
  Ggrama.load_schema_loop fs rest all (VStr name).
Proof.
  induction 1 as [|v d pre dpre Hv _ IH]; intros Hno; [reflexivity|].
  inversion Hno as [|? ? [Hb Hs] Hno']; subst.
  rewrite <- app_comm_cons, (ggrama_schema_step _ _ _ _ _ _ Hv), Hb, Hs.
  apply IH, Hno'.
Qed.

Lemma find_model_step fs v d rest all name :
  names_dir v d ->
  Ggen.find_model_path_loop fs (v :: rest) all (VStr name) =
    if path_exists fs (joinpath d name) then Ok (joinpath d name)
    else Ggen.find_model_path_loop fs rest all (VStr name).
Proof.
  intros Hv. cbn [Ggen.find_model_path_loop].
  rewrite (path_div_str _ _ _ Hv). reflexivity.
Qed.

(** ** C1: the order of the two schema lookups *)

(** C1 (as amended).  Schema resolution visits the search directories in
    list order and, inside each directory, tries the bare name and then the
    [.gbnf] name before it moves on: when no directory before [d] holds
    either file and [d] holds one of them, the schema comes from [d], from
    its bare file if it has one and from its [.gbnf] file otherwise,
    whatever the directories listed after [d] hold.  Both entry scripts
    search this way; they differ in how they read the [.gbnf] file. *)
Theorem C1_schema_lookup_is_per_directory `{Runtime}
    fs pre dpre v d post name :
  Forall2 names_dir pre dpre ->
  Forall (holds_no_schema fs name) dpre ->
  names_dir v d ->
  path_exists fs (joinpath d name) = true \/
    path_exists fs (joinpath d (name ++ ".gbnf")) = true ->
  Ggen.load_schema fs (VList (pre ++ v :: post)) (VStr name) =
    (if path_exists fs (joinpath d name) then
       text ← read_text fs (joinpath d name); json_load text
     else
       text ← read_text fs (joinpath d (name ++ ".gbnf")); Ok (VStr text))
  /\
  Ggrama.load_schema fs (VList (pre ++ v :: post)) (VStr name) =
    (if path_exists fs (joinpath d name) then
       text ← read_text fs (joinpath d name); json_load text
     else
       text ← read_text fs (joinpath d (name ++ ".gbnf")); json_load text).
Proof.
  intros Hpre Hno Hv Hd.
  unfold Ggen.load_schema, Ggrama.load_schema.
  cbn [is_none py_iter mbind result_bind].
  rewrite (ggen_schema_skip _ _ _ _ _ _ Hpre Hno),
          (ggrama_schema_skip _ _ _ _ _ _ Hpre Hno),
          (ggen_schema_step _ _ _ _ _ _ Hv), (ggrama_schema_step _ _ _ _ _ _ Hv).
  destruct (path_exists fs (joinpath d name)); [split; reflexivity|].
  destruct Hd as [Hd|Hd]; [discriminate|]. rewrite Hd. split; reflexivity.
Qed.

Lemma C1_schema_lookup_is_per_directory_witness :
  Ggen.load_schema (H := Demo.rt) Demo.fs_order
      (VList ([VStr "/empty"] ++ VPath "/a" :: [VStr "/b"])) (VStr "answer")
    = Ok (VStr Demo.gbnf_text)
  /\ Ggrama.load_schema (H := Demo.rt) Demo.fs_order
      (VList ([VStr "/empty"] ++ VPath "/a" :: [VStr "/b"])) (VStr "answer")
    = Raise JSONDecodeError.
Proof.
  assert (Hpre : Forall2 names_dir [VStr "/empty"] ["/empty"])
    by (repeat constructor).
  assert (Hno : Forall (holds_no_schema Demo.fs_order "answer") ["/empty"])
    by (repeat constructor).
  exact (C1_schema_lookup_is_per_directory (H := Demo.rt) Demo.fs_order
           [VStr "/empty"] ["/empty"] (VPath "/a") "/a" [VStr "/b"] "answer"
           Hpre Hno (names_dir_path "/a") (or_intror eq_refl)).
Defined.

(** The claim as stated fails: [/a], listed first, holds only
    [answer.gbnf]; [/b], listed later, holds the bare [answer].  The schema
    resolved is the grammar text of [/a] (in ggrama: the failure to read that
    text as JSON), not the bare file of [/b]. *)
Lemma C1_later_bare_file_is_not_resolved :
  path_exists Demo.fs_order (joinpath "/a" ("answer" ++ ".gbnf")) = true
  /\ path_exists Demo.fs_order (joinpath "/b" "answer") = true
  /\ (text ← read_text Demo.fs_order (joinpath "/b" "answer");
      json_load (H := Demo.rt) text) = Ok (VDict [("type", VStr "object")])
  /\ Ggen.load_schema (H := Demo.rt) Demo.fs_order
       (VList [VStr "/a"; VStr "/b"]) (VStr "answer") = Ok (VStr Demo.gbnf_text)
  /\ Ggrama.load_schema (H := Demo.rt) Demo.fs_order
       (VList [VStr "/a"; VStr "/b"]) (VStr "answer") = Raise JSONDecodeError.
Proof. repeat split; run. Qed.

(** ** C3: what the [.gbnf] fallback yields *)

(** In ggen the claim holds: when no directory up to [d] holds the bare
    name and [d] is the first to hold [name.gbnf], a file with content
    [text], the schema is that text, unparsed. *)
Lemma ggen_gbnf_fallback_yields_raw_text `{Runtime}
    fs pre dpre v d post name text :
  Forall2 names_dir pre dpre ->
  Forall (holds_no_schema fs name) dpre ->
  names_dir v d ->
  path_exists fs (joinpath d name) = false ->
  fs !! joinpath d (name ++ ".gbnf") = Some (File text) ->
  Ggen.load_schema fs (VList (pre ++ v :: post)) (VStr name) = Ok (VStr text).
Proof.
  intros Hpre Hno Hv Hbare Hfile.
  unfold Ggen.load_schema. cbn [is_none py_iter mbind result_bind].
  rewrite (ggen_schema_skip _ _ _ _ _ _ Hpre Hno), (ggen_schema_step _ _ _ _ _ _ Hv), Hbare.
  unfold path_exists, read_text. rewrite Hfile. reflexivity.
Qed.

(** In ggrama the same lookup parses the [.gbnf] file as JSON. *)
Lemma ggrama_gbnf_fallback_parses_json `{Runtime}
    fs pre dpre v d post name text :
  Forall2 names_dir pre dpre ->
  Forall (holds_no_schema fs name) dpre ->
  names_dir v d ->
  path_exists fs (joinpath d name) = false ->
  fs !! joinpath d (name ++ ".gbnf") = Some (File text) ->
  Ggrama.load_schema fs (VList (pre ++ v :: post)) (VStr name) = json_load text.
Proof.
  intros Hpre Hno Hv Hbare Hfile.
  unfold Ggrama.load_schema. cbn [is_none py_iter mbind result_bind].
  rewrite (ggrama_schema_skip _ _ _ _ _ _ Hpre Hno), (ggrama_schema_step _ _ _ _ _ _ Hv), Hbare.
  unfold path_exists, read_text. rewrite Hfile. reflexivity.
Qed.

(** C3.  The search path [/s] holds [answer.gbnf], a GBNF grammar, and no
    bare [answer].  ggen resolves the schema to the grammar text; ggrama
    hands the text to [json.load] and the lookup ends in a JSON decoding
    error instead of the raw grammar text. *)
Theorem C3_ggrama_reads_grammar_file_as_json :
  path_exists Demo.fs_gbnf_only (joinpath "/s" "answer") = false
  /\ read_text Demo.fs_gbnf_only (joinpath "/s" ("answer" ++ ".gbnf")) = Ok Demo.gbnf_text
  /\ Ggen.load_schema (H := Demo.rt) Demo.fs_gbnf_only (VList [VStr "/s"]) (VStr "answer")
     = Ok (VStr Demo.gbnf_text)
  /\ Ggrama.load_schema (H := Demo.rt) Demo.fs_gbnf_only (VList [VStr "/s"]) (VStr "answer")
     = Raise JSONDecodeError.
Proof. repeat split; run. Qed.

(** ** C7: what a failed lookup reports *)

Lemma find_model_not_found fs paths dirs all name :
  Forall2 names_dir paths dirs ->
  Forall (fun d => path_exists fs (joinpath d name) = false) dirs ->
  Ggen.find_model_path_loop fs paths all (VStr name) =
    Raise (FileNotFoundError
             [Lit "Model "; Fmt (VStr name); Lit " not found in paths "; Fmt all]).
Proof.
  induction 1 as [|v d paths dirs Hv _ IH]; intros Hno; [reflexivity|].
  inversion Hno as [|? ? Hd Hno']; subst.
  rewrite (find_model_step _ _ _ _ _ _ Hv), Hd. apply IH, Hno'.
Qed.

Lemma first_existing_none fs (candidates : list string) :
  Forall (fun p => path_exists fs p = false) candidates ->
  first_existing fs candidates = None.
Proof.
  induction 1 as [|p l Hp _ IH]; [reflexivity|].
  cbn [first_existing]. rewrite Hp. exact IH.
Qed.

(** C7.  When no directory of the searched list holds the resource, each
    locator of ggen fails with a [FileNotFoundError] whose message
    interpolates the name that was looked up and the whole list that was
    searched (in [main] that list already includes the override
    directory).  For a schema this is the case where neither the bare nor
    the [.gbnf] name exists in any directory. *)
Theorem C7_not_found_reports_name_and_searched_paths `{Runtime}
    fs paths dirs name :
  Forall2 names_dir paths dirs ->
  (Forall (fun d => path_exists fs (joinpath d name) = false) dirs ->
   exists msg,
     Ggen.find_model_path fs (VList paths) (VStr name) = Raise (FileNotFoundError msg)
     /\ Fmt (VStr name) ∈ msg /\ Fmt (VList paths) ∈ msg)
  /\
  (Forall (holds_no_schema fs name) dirs ->
   exists msg,
     Ggen.load_schema fs (VList paths) (VStr name) = Raise (FileNotFoundError msg)
     /\ Fmt (VStr name) ∈ msg /\ Fmt (VList paths) ∈ msg)
  /\
  (Forall (fun d => path_exists fs (joinpath d (name ++ ".txt")) = false) dirs ->
   exists msg,
     Ggen.load_prompt_template fs (VList paths) (VStr name) = Raise (FileNotFoundError msg)
     /\ Fmt (VStr name) ∈ msg /\ Fmt (VList paths) ∈ msg).
Proof.
  intros Hdirs. repeat split.
  - intros Hno. eexists. split; [|split].
    + unfold Ggen.find_model_path. cbn [is_none py_iter mbind result_bind].
      apply (find_model_not_found _ _ _ _ _ Hdirs Hno).
    + set_solver.
    + set_solver.
  - intros Hno. eexists. split; [|split].
    + unfold Ggen.load_schema. cbn [is_none py_iter mbind result_bind].
      pose proof (ggen_schema_skip fs paths dirs [] (VList paths) name Hdirs Hno) as Hskip.
      rewrite app_nil_r in Hskip. exact Hskip.
    + set_solver.
    + set_solver.
  - intros Hno. eexists. split; [|split].
    + unfold Ggen.load_prompt_template. cbn [is_none py_iter mbind result_bind].
      rewrite (ggen_template_loop _ _ _ _ _ Hdirs), first_existing_none; [reflexivity|].
      apply Forall_fmap. exact Hno.
    + set_solver.
    + set_solver.
Qed.

Lemma C7_not_found_reports_name_and_searched_paths_witness :
  (exists msg,
     Ggen.find_model_path Demo.fs_order (VList [VPath "/a"; VStr "/b"]) (VStr "m.gguf")
       = Raise (FileNotFoundError msg)
     /\ Fmt (VStr "m.gguf") ∈ msg /\ Fmt (VList [VPath "/a"; VStr "/b"]) ∈ msg)
  /\
  (exists msg,
     Ggen.load_schema (H := Demo.rt) Demo.fs_order (VList [VPath "/a"; VStr "/b"]) (VStr "m.gguf")
       = Raise (FileNotFoundError msg)
     /\ Fmt (VStr "m.gguf") ∈ msg /\ Fmt (VList [VPath "/a"; VStr "/b"]) ∈ msg).
Proof.
  assert (Hdirs : Forall2 names_dir [VPath "/a"; VStr "/b"] ["/a"; "/b"])
    by (repeat constructor).
  destruct (C7_not_found_reports_name_and_searched_paths (H := Demo.rt)
              Demo.fs_order [VPath "/a"; VStr "/b"] ["/a"; "/b"] "m.gguf" Hdirs)
    as (Hmodel & Hschema & _).
  split.
  - apply Hmodel. repeat constructor.
  - apply Hschema. repeat constructor.
Defined.

(** ** C10: the template file name each entry script looks up *)

(** C10.  Over the same search directories and template name, ggen's
    [load_prompt_template] reads the first existing [<name>.txt] and
    ggrama's the first existing bare [<name>]; nothing else decides the
    outcome, so ggen never finds a template stored under the bare name and
    ggrama never finds one stored as [<name>.txt]. *)
Theorem C10_template_file_name_convention fs paths dirs name :
  Forall2 names_dir paths dirs ->
  Ggen.load_prompt_template fs (VList paths) (VStr name) =
    match first_existing fs ((fun d => joinpath d (name ++ ".txt")) <$> dirs) with
    | Some p => read_text fs p
    | None => Raise (FileNotFoundError
                       [Lit "Prompt template "; Fmt (VStr name);
                        Lit ".txt not found in paths "; Fmt (VList paths)])
    end
  /\
  Ggrama.load_prompt_template fs (VList paths) (VStr name) =
    match first_existing fs ((fun d => joinpath d name) <$> dirs) with
    | Some p => read_text fs p
    | None => Raise (FileNotFoundError
                       [Lit "Prompt template "; Fmt (VStr name);
                        Lit " not found in paths "; Fmt (VList paths)])
    end.
Proof.
  intros Hdirs. split.
  - unfold Ggen.load_prompt_template. cbn [is_none py_iter mbind result_bind].
    apply (ggen_template_loop _ _ _ _ _ Hdirs).
  - unfold Ggrama.load_prompt_template. cbn [is_none py_iter mbind result_bind].
    apply (ggrama_template_loop _ _ _ _ _ Hdirs).
Qed.

Lemma C10_template_file_name_convention_witness :
  Ggen.load_prompt_template Demo.fs_templates (VList [VStr "/t1"; VStr "/t2"]) (VStr "instruct")
    = Ok "txt: {prompt}"
  /\ Ggrama.load_prompt_template Demo.fs_templates (VList [VStr "/t1"; VStr "/t2"]) (VStr "instruct")
    = Ok "bare: {prompt}".
Proof.
  assert (Hdirs : Forall2 names_dir [VStr "/t1"; VStr "/t2"] ["/t1"; "/t2"])
    by (repeat constructor).
  exact (C10_template_file_name_convention Demo.fs_templates
           [VStr "/t1"; VStr "/t2"] ["/t1"; "/t2"] "instruct" Hdirs).
Defined.

(** A directory that stores the template only under its bare name serves
    ggrama and not ggen; one that stores it only as [.txt] serves ggen and
    not ggrama. *)
Lemma template_conventions_exclude_each_other :
  (exists msg, Ggen.load_prompt_template Demo.fs_templates (VList [VStr "/t1"]) (VStr "instruct")
     = Raise (FileNotFoundError msg))
  /\ Ggrama.load_prompt_template Demo.fs_templates (VList [VStr "/t1"]) (VStr "instruct")
     = Ok "bare: {prompt}"
  /\ Ggen.load_prompt_template Demo.fs_templates (VList [VStr "/t2"]) (VStr "instruct")
     = Ok "txt: {prompt}"
  /\ (exists msg, Ggrama.load_prompt_template Demo.fs_templates (VList [VStr "/t2"]) (VStr "instruct")
     = Raise (FileNotFoundError msg)).
Proof. repeat split; try run; eexists; run. Qed.

(** ** C6: rendering the prompt *)

(** ggen renders the example of the specification exactly. *)
Lemma ggen_renders_example :
  format (VStr Demo.template_qa) []
    [("prompt", VStr "capital of France?"); ("input_data", VStr "")]
  = Ok Demo.rendered_qa.
Proof. run. Qed.

(** ... and that rendering is the prompt ggen's [generate_with_grammar]
    sends to the model. *)
Lemma ggen_generate_sends_rendered_prompt `{Runtime} (llm : Llm) (grammar : Grammar) :
  Ggen.generate_with_grammar llm (VStr Demo.template_qa)
    (VStr "capital of France?") (VStr "") grammar =
  (response ← llama_call llm Demo.rendered_qa grammar (-1);
   choices ← getitem_key response "choices";
   choice ← getitem_0 choices;
   text ← getitem_key choice "text";
   json_loads_val text).
Proof.
  unfold Ggen.generate_with_grammar. rewrite ggen_renders_example. reflexivity.
Qed.

(** C6.  On the template and prompt of the example, ggrama's
    [generate_with_grammar] unpacks the prompt into positional arguments
    and passes no keyword, so rendering the named placeholder [{prompt}]
    raises [KeyError] before the model is called: no prompt is rendered. *)
Theorem C6_ggrama_cannot_render_named_placeholders `{Runtime}
    (llm : Llm) (grammar : Grammar) :
  Ggrama.generate_with_grammar llm (VStr Demo.template_qa)
    (VStr "capital of France?") grammar = Raise (KeyError "prompt").
Proof. reflexivity. Qed.

(** ** C2: a direct-path override and the search-path list *)

(** ggrama searches the override directory alone, whatever the
    configuration holds. *)
Lemma ggrama_override_replaces_search_paths config field path :
  truthy path = true ->
  Ggrama.search_paths config field path = Ok (VList [path]).
Proof. unfold Ggrama.search_paths. intros ->. reflexivity. Qed.

(** ggen appends the override directory to the configured list, so every
    configured directory is searched before it. *)
Lemma ggen_override_is_searched_last config field path dirs :
  config !! field = Some (VList dirs) ->
  truthy path = true ->
  Ggen.search_paths config field path = Ok (VList (dirs ++ [path])).
Proof.
  unfold Ggen.search_paths, getattr. intros -> ->. reflexivity.
Qed.

(** C2.  ggen is run with [-m m.gguf -M /opt/models -s answer] on a machine
    whose standard directory [/usr/share/ggrama/models] also holds a
    [m.gguf].  The override directory is present and holds the model, yet
    the model resolved is the one of the search-path directory. *)
Theorem C2_ggen_search_path_wins_over_override :
  path_exists Demo.fs_machine (joinpath "/opt/models" "m.gguf") = true
  /\ (config ← Ggen.Config Demo.env Demo.fs_machine;
      sel ← Ggen.overrides (Ggen.parse_args Demo.args_model_dir) config;
      '(_, model, _) ← Ggen.load_resources (H := Demo.rt) Demo.fs_machine config sel;
      Ok (Ggen.sel_model_path sel, config !! "model_paths", model))
     = Ok (VStr "/opt/models",
           Some (VList [VPath "/usr/share/ggrama/models"]),
           "/usr/share/ggrama/models/m.gguf").
Proof. split; run. Qed.

(** On the same inputs ggrama resolves the model of the override
    directory. *)
Lemma ggrama_resolves_model_in_override_directory :
  (paths ← Ggrama.search_paths
             (<["model_paths" := VList [VPath "/usr/share/ggrama/models"]]> Ggrama.defaults)
             "model_paths" (VStr "/opt/models");
   Ggrama.find_model_path Demo.fs_machine paths (VStr "m.gguf"))
  = Ok "/opt/models/m.gguf".
Proof. run. Qed.

(** ** C4: command-line values and configuration-file values *)

Lemma override_given arg config field v :
  config !! field = Some v ->
  Ggen.override arg config field = Ok (cli_else_config arg v)
  /\ Ggrama.override arg config field = Ok (cli_else_config arg v).
Proof.
  intros Hv. unfold Ggen.override, Ggrama.override, cli_else_config, given, getattr.
  rewrite Hv. destruct arg as [s|]; cbn; [|split; reflexivity].
  destruct (String.eqb s ""); split; reflexivity.
Qed.

(** C4 (as amended).  For each of the six overrides the value [main] uses is
    the command-line value when one is given and is not the empty string,
    whatever the configuration files set; when the option is absent, or
    given as the empty string, it is the value the configuration layer
    holds, unchanged.  For ggen's [prompt_template_file] this is stated for
    a template name that is given on the command line. *)
Theorem C4_command_line_value_else_configured argv config
    (mn mp sn sp tf tp : pyval) :
  config !! "model_name" = Some mn ->
  config !! "model_path" = Some mp ->
  config !! "schema_name" = Some sn ->
  config !! "schema_path" = Some sp ->
  config !! "prompt_template_file" = Some tf ->
  config !! "prompt_template_path" = Some tp ->
  Ggrama.overrides (Ggrama.parse_args argv) config =
    Ok {| Ggrama.sel_model_name := cli_else_config (model_name argv) mn;
          Ggrama.sel_model_path := cli_else_config (model_path argv) mp;
          Ggrama.sel_schema_name := cli_else_config (schema_name argv) sn;
          Ggrama.sel_schema_path := cli_else_config (schema_path argv) sp;
          Ggrama.sel_prompt_template_file := cli_else_config (prompt_template_file argv) tf;
          Ggrama.sel_prompt_template_path := cli_else_config (prompt_template_path argv) tp |}
  /\
  exists sel,
    Ggen.overrides (Ggen.parse_args argv) config = Ok sel
    /\ Ggen.sel_model_name sel = cli_else_config (model_name argv) mn
    /\ Ggen.sel_model_path sel = cli_else_config (model_path argv) mp
    /\ Ggen.sel_schema_name sel = cli_else_config (schema_name argv) sn
    /\ Ggen.sel_schema_path sel = cli_else_config (schema_path argv) sp
    /\ Ggen.sel_prompt_template_path sel = cli_else_config (prompt_template_path argv) tp
    /\ (forall t, prompt_template_file argv = Some t ->
        Ggen.sel_prompt_template_file sel = cli_else_config (Some t) tf).
Proof.
  intros Hmn Hmp Hsn Hsp Htf Htp.
  unfold Ggrama.overrides, Ggen.overrides, Ggrama.parse_args, Ggen.parse_args.
  cbn [model_name model_path schema_name schema_path prompt_template_file
       prompt_template_path].
  split.
  - rewrite (proj2 (override_given _ _ _ _ Hmn)), (proj2 (override_given _ _ _ _ Hmp)),
      (proj2 (override_given _ _ _ _ Hsn)), (proj2 (override_given _ _ _ _ Hsp)),
      (proj2 (override_given _ _ _ _ Htf)), (proj2 (override_given _ _ _ _ Htp)).
    reflexivity.
  - rewrite (proj1 (override_given _ _ _ _ Hmn)), (proj1 (override_given _ _ _ _ Hmp)),
      (proj1 (override_given _ _ _ _ Hsn)), (proj1 (override_given _ _ _ _ Hsp)),
      (proj1 (override_given _ _ _ _ Htf)), (proj1 (override_given _ _ _ _ Htp)).
    eexists. split; [reflexivity|]. cbn.
    repeat split; try reflexivity.
    intros t ->. reflexivity.
Qed.

(** An instance on a loaded configuration: [/c/names.json] and
    [/c/template.json] set the model name, the schema name and the template
    name.  The command line gives another model name and another template
    name, which are the ones used, and an empty schema name, for which the
    configured one is used; the model directory is given on the command
    line only. *)
Lemma C4_command_line_value_else_configured_witness :
  (Demo.config_layers !! "model_name" = Some (VStr "m.gguf")
   /\ Demo.config_layers !! "schema_name" = Some (VStr "answer")
   /\ Demo.config_layers !! "prompt_template_file" = Some (VStr "custom"))
  /\ (model_name Demo.args_layers = Some "cli.gguf"
      /\ schema_name Demo.args_layers = Some ""
      /\ prompt_template_file Demo.args_layers = Some "brief")
  /\ Ggrama.overrides (Ggrama.parse_args Demo.args_layers) Demo.config_layers =
       Ok {| Ggrama.sel_model_name := VStr "cli.gguf";
             Ggrama.sel_model_path := VStr "/opt/models";
             Ggrama.sel_schema_name := VStr "answer";
             Ggrama.sel_schema_path := VNone;
             Ggrama.sel_prompt_template_file := VStr "brief";
             Ggrama.sel_prompt_template_path := VNone |}
  /\ exists sel,
       Ggen.overrides (Ggen.parse_args Demo.args_layers) Demo.config_layers = Ok sel
       /\ Ggen.sel_model_name sel = VStr "cli.gguf"
       /\ Ggen.sel_model_path sel = VStr "/opt/models"
       /\ Ggen.sel_schema_name sel = VStr "answer"
       /\ Ggen.sel_schema_path sel = VNone
       /\ Ggen.sel_prompt_template_path sel = VNone
       /\ Ggen.sel_prompt_template_file sel = VStr "brief".
Proof.
  destruct (C4_command_line_value_else_configured Demo.args_layers Demo.config_layers
              (VStr "m.gguf") VNone (VStr "answer") VNone (VStr "custom") VNone
              eq_refl eq_refl eq_refl eq_refl eq_refl eq_refl)
    as [Hggrama (sel & Hsel & Hmn & Hmp & Hsn & Hsp & Htp & Htf)].
  split; [repeat split|]. split; [repeat split|].
  split; [exact Hggrama|].
  exists sel. repeat split; try assumption.
  exact (Htf "brief" eq_refl).
Defined.

(** The claim as stated fails twice on ggen run with
    [-c /c/names.json -c /c/template.json -m ""]: the model name given on
    the command line is the empty string, and the name used is the one of
    the configuration file; no template name is given, and the name used is
    [instruct], not the one the configuration file sets. *)
Lemma C4_command_line_value_is_not_always_decisive :
  model_name Demo.args_empty_model = Some ""
  /\ prompt_template_file Demo.args_empty_model = None
  /\ (config ← Ggen.Config Demo.env Demo.fs_machine;
      config ← for_each (Ggen.load_config_file (H := Demo.rt) Demo.fs_machine)
                 (config_file Demo.args_empty_model) config;
      sel ← Ggen.overrides (Ggen.parse_args Demo.args_empty_model) config;
      Ok (config !! "model_name", Ggen.sel_model_name sel,
          config !! "prompt_template_file", Ggen.sel_prompt_template_file sel))
     = Ok (Some (VStr "m.gguf"), VStr "m.gguf", Some (VStr "custom"), VStr "instruct")
  /\ (config ← for_each (Ggrama.load_config_file (H := Demo.rt) Demo.fs_machine)
                 (config_file Demo.args_empty_model) Ggrama.defaults;
      sel ← Ggrama.overrides (Ggrama.parse_args Demo.args_empty_model) config;
      Ok (config !! "model_name", Ggrama.sel_model_name sel))
     = Ok (Some (VStr "m.gguf"), VStr "m.gguf").
Proof. repeat split; run. Qed.

(** In ggen an absent [-t] parses to [instruct], which then stands for a
    given value: the configured template name is not consulted. *)
Lemma ggen_absent_template_name_is_instruct argv config :
  prompt_template_file argv = None ->
  Ggen.override (prompt_template_file (Ggen.parse_args argv)) config "prompt_template_file"
  = Ok (VStr "instruct").
Proof. intros Hnone. cbn. rewrite Hnone. reflexivity. Qed.

(** ** C9: the search paths of a configuration built from defaults *)

Lemma for_each_invariant {A S : Type} (P : S -> Prop) (body : S -> A -> result S) l :
  (forall s x s', x ∈ l -> P s -> body s x = Ok s' -> P s') ->
  forall s s', P s -> for_each body l s = Ok s' -> P s'.
Proof.
  induction l as [|x l IH]; intros Hbody s s' Hs Hrun; cbn in Hrun.
  - injection Hrun as <-. exact Hs.
  - destruct (body s x) as [s1|e] eqn:Hx; [|discriminate].
    apply (IH (fun s0 y s0' Hy => Hbody s0 y s0' (list_elem_of_further _ _ _ Hy)) s1 s').
    + apply (Hbody s x s1); [left|exact Hs|exact Hx].
    + exact Hrun.
Qed.

Lemma for_each_total {A S : Type} (P : S -> Prop) (body : S -> A -> result S) l :
  (forall s x, x ∈ l -> P s -> exists s', body s x = Ok s' /\ P s') ->
  forall s, P s -> exists s', for_each body l s = Ok s' /\ P s'.
Proof.
  induction l as [|x l IH]; intros Hbody s Hs; cbn.
  - exists s. split; [reflexivity|exact Hs].
  - destruct (Hbody s x) as (s1 & -> & Hs1); [left|exact Hs|].
    apply IH; [|exact Hs1].
    intros s0 y Hy. apply Hbody. right. exact Hy.
Qed.

Lemma append_to_directory fs c c' attr p :
  is_dir fs p = true ->
  only_directories fs c ->
  append_to c attr (VPath p) = Ok c' ->
  only_directories fs c'.
Proof.
  intros Hp Hc Happ field Hfield.
  unfold append_to, getattr in Happ.
  destruct (c !! attr) as [[| | | | |items| |]|] eqn:Hattr; cbn in Happ;
    try discriminate.
  injection Happ as <-.
  destruct (Hc field Hfield) as (entries & Hentries & Hdirs).
  destruct (decide (attr = field)) as [->|Hne].
  - rewrite lookup_insert_eq. exists (items ++ [VPath p])%list. split; [reflexivity|].
    rewrite Hattr in Hentries. injection Hentries as ->.
    apply Forall_app. split; [exact Hdirs|].
    constructor; [|constructor]. exists p. split; [reflexivity|exact Hp].
  - rewrite lookup_insert_ne by exact Hne. exists entries. split; assumption.
Qed.

Lemma defaults_only_directories fs :
  only_directories fs Ggen.defaults /\ only_directories fs Ggrama.defaults.
Proof.
  split; intros field Hfield; exists []; (split; [|constructor]);
    unfold search_path_fields in Hfield;
    repeat (apply elem_of_cons in Hfield as [->|Hfield]; [reflexivity|]);
    inversion Hfield.
Qed.

Lemma ggen_add_resources_only_directories fs c c' directory :
  only_directories fs c ->
  Ggen._add_resources_from_directory fs c directory = Ok c' ->
  only_directories fs c'.
Proof.
  unfold Ggen._add_resources_from_directory. intros Hc Hrun.
  destruct (is_dir fs directory); [|injection Hrun as <-; exact Hc].
  revert Hrun. apply for_each_invariant; [|exact Hc].
  intros s subdir s' _ Hs. unfold Ggen.add_subdir.
  destruct (is_dir fs (joinpath directory subdir)) eqn:Hdir;
    [|intros [= <-]; exact Hs].
  repeat (match goal with |- context [if ?b then _ else _] => destruct b end);
    try (intros [= <-]; exact Hs);
    apply (append_to_directory _ _ _ _ _ Hdir Hs).
Qed.

Lemma ggrama_load_resources_only_directories fs c c' directory :
  only_directories fs c ->
  Ggrama._load_resources_from_directory fs c directory = Ok c' ->
  only_directories fs c'.
Proof.
  unfold Ggrama._load_resources_from_directory. intros Hc Hrun.
  destruct (is_dir fs directory); [|injection Hrun as <-; exact Hc].
  revert Hrun. apply for_each_invariant; [|exact Hc].
  intros s subdir s' _ Hs. unfold Ggrama.add_subdir.
  destruct (is_dir fs (joinpath directory subdir)) eqn:Hdir;
    [|intros [= <-]; exact Hs].
  apply (append_to_directory _ _ _ _ _ Hdir Hs).
Qed.

(** C9.  In a configuration built from the defaults alone, by either entry
    script, every entry of [model_paths], [schema_paths] and
    [prompt_template_paths] is a directory of the file system the
    configuration was built on: a standard directory, or a subdirectory of
    one, that is missing or is not a directory contributes no entry. *)
Theorem C9_default_search_paths_are_directories env fs c :
  Ggen.Config env fs = Ok c \/ Ggrama.Config env fs = Ok c ->
  only_directories fs c.
Proof.
  unfold Ggen.Config, Ggrama.Config,
    Ggen.load_defaults_from_standard_directories,
    Ggrama.load_defaults_from_standard_directories.
  destruct (defaults_only_directories fs) as [Hgen Hgrama].
  destruct (package_resources env) as [resources_path|e];
    cbn [mbind result_bind]; [|intros [|]; discriminate].
  intros [Hrun|Hrun].
  - destruct (Ggen._add_resources_from_directory fs Ggen.defaults resources_path)
      as [c1|e] eqn:H1; [|discriminate].
    cbn [mbind result_bind] in Hrun. revert Hrun.
    apply for_each_invariant.
    + intros s d s' _. apply ggen_add_resources_only_directories.
    + apply (ggen_add_resources_only_directories _ _ _ _ Hgen H1).
  - destruct (Ggrama._load_resources_from_directory fs Ggrama.defaults resources_path)
      as [c1|e] eqn:H1; [|discriminate].
    cbn [mbind result_bind] in Hrun. revert Hrun.
    apply for_each_invariant.
    + intros s d s' _. apply ggrama_load_resources_only_directories.
    + apply (ggrama_load_resources_only_directories _ _ _ _ Hgrama H1).
Qed.

Lemma C9_default_search_paths_are_directories_witness :
  only_directories Demo.fs_machine Demo.config_machine.
Proof.
  apply (C9_default_search_paths_are_directories Demo.env Demo.fs_machine).
  left. run.
Defined.

(** On that machine the lists are not empty, and the standard directory
    whose [models] is a regular file contributes no model path. *)
Lemma default_search_paths_on_machine :
  is_dir Demo.fs_machine "/home/u/.config/gramma" = true
  /\ path_exists Demo.fs_machine "/home/u/.config/gramma/models" = true
  /\ is_dir Demo.fs_machine "/home/u/.config/gramma/models" = false
  /\ Demo.config_machine !! "model_paths"
     = Some (VList [VPath "/usr/share/ggrama/models"])
  /\ Demo.config_machine !! "schema_paths"
     = Some (VList [VPath "/usr/share/ggrama/schemas"])
  /\ Demo.config_machine !! "prompt_template_paths"
     = Some (VList [VPath "/pkg/ggen/resources/prompt_templates"]).
Proof. repeat split; run. Qed.

Lemma append_to_search_path fs c field p :
  field ∈ search_path_fields ->
  is_dir fs p = true ->
  only_directories fs c ->
  exists c', append_to c field (VPath p) = Ok c' /\ only_directories fs c'.
Proof.
  intros Hfield Hp Hc.
  destruct (Hc field Hfield) as (entries & Hentries & _).
  assert (Hrun : append_to c field (VPath p)
                 = Ok (<[field := VList (entries ++ [VPath p])]> c)).
  { unfold append_to, getattr. rewrite Hentries. reflexivity. }
  eexists. split; [exact Hrun|].
  apply (append_to_directory _ _ _ _ _ Hp Hc Hrun).
Qed.

Lemma ggen_add_resources_succeeds fs c directory :
  only_directories fs c ->
  exists c', Ggen._add_resources_from_directory fs c directory = Ok c'
             /\ only_directories fs c'.
Proof.
  intros Hc. unfold Ggen._add_resources_from_directory.
  destruct (is_dir fs directory); [|exists c; split; [reflexivity|exact Hc]].
  apply for_each_total; [|exact Hc].
  intros s subdir Hsub Hs. unfold Ggen.add_subdir.
  destruct (is_dir fs (joinpath directory subdir)) eqn:Hdir;
    [|exists s; split; [reflexivity|exact Hs]].
  repeat (apply elem_of_cons in Hsub as [->|Hsub];
          [cbn [String.eqb Ascii.eqb Bool.eqb];
           apply append_to_search_path;
           [unfold search_path_fields; set_solver|exact Hdir|exact Hs]|]).
  inversion Hsub.
Qed.

(** ggen always builds its default configuration once the package's
    resource directory is located. *)
Lemma ggen_Config_succeeds env fs resources_path :
  package_resources env = Ok resources_path ->
  exists c, Ggen.Config env fs = Ok c.
Proof.
  intros Hres.
  unfold Ggen.Config, Ggen.load_defaults_from_standard_directories.
  rewrite Hres. cbn [mbind result_bind].
  destruct (ggen_add_resources_succeeds fs Ggen.defaults resources_path
              (proj1 (defaults_only_directories fs))) as (c1 & -> & Hc1).
  cbn [mbind result_bind].
  destruct (for_each_total (only_directories fs)
              (fun self d => Ggen._add_resources_from_directory fs self (expanduser env d))
              Ggen.standard_dirs
              (fun s d _ Hs => ggen_add_resources_succeeds fs s (expanduser env d) Hs)
              c1 Hc1) as (c & Hc & _).
  exists c. exact Hc.
Qed.

(** ggrama's constructor looks the lists up under [models_paths],
    [schemas_paths] and [prompt_templates_paths], names the instance does
    not have: it raises as soon as one subdirectory exists, so a
    configuration it does build has empty lists. *)
Lemma ggrama_Config_on_machine :
  Ggrama.Config Demo.env Demo.fs_machine
  = Raise (AttributeError "prompt_templates_paths").
Proof. run. Qed.

(** ** C5: loading configuration files *)

Lemma setattr_plain self k v :
  mem k descriptors = false -> setattr self k v = Ok (<[k := v]> self).
Proof.
  unfold mem, descriptors, setattr. cbn [existsb].
  intros Hk. apply orb_false_elim in Hk as [H1 Hk].
  apply orb_false_elim in Hk as [H2 Hk]. apply orb_false_elim in Hk as [H3 _].
  rewrite H1, H2, H3. reflexivity.
Qed.

Lemma hasattr_same_domain ca (s1 s2 : instance) k :
  (is_Some (s1 !! k) <-> is_Some (s2 !! k)) -> hasattr ca s1 k = hasattr ca s2 k.
Proof.
  unfold hasattr. intros Hdom.
  destruct (s1 !! k) as [v1|] eqn:H1, (s2 !! k) as [v2|] eqn:H2; try reflexivity.
  - destruct (proj1 Hdom (ex_intro _ v1 eq_refl)) as [? [=]].
  - destruct (proj2 Hdom (ex_intro _ v2 eq_refl)) as [? [=]].
Qed.

Lemma hasattr_false_not_descriptor ca (self : instance) k :
  hasattr ca self k = false -> mem k descriptors = false /\ self !! k = None.
Proof.
  unfold hasattr. destruct (self !! k); [discriminate|].
  intros Hk. apply orb_false_elim in Hk as [Hk _]. split; [exact Hk|reflexivity].
Qed.

Lemma dict_get_Some_key items k :
  is_Some (dict_get items k) -> exists v', (k, v') ∈ items.
Proof.
  induction items as [|[k0 v0] rest IH]; cbn; [intros [? [=]]|].
  destruct (dict_get rest k) as [v1|] eqn:Hrest.
  - intros _. destruct IH as [v' Hin]; [eexists; reflexivity|].
    exists v'. right. exact Hin.
  - destruct (String.eqb k0 k) eqn:Hk; [|intros [? [=]]].
    apply String.eqb_eq in Hk as ->. intros _. exists v0. left.
Qed.

(** One pass over the items of a document: every key that names an
    attribute, and is not a data descriptor, gets the document's value. *)
Lemma set_items_spec ca items : forall self,
  Forall (fun kv : string * pyval => mem kv.1 descriptors = false) items ->
  exists self',
    for_each (set_item_of ca) items self = Ok self'
    /\ forall k, self' !! k =
         match dict_get items k with
         | Some v => if hasattr ca self k then Some v else self !! k
         | None => self !! k
         end.
Proof.
  induction items as [|[k0 v0] rest IH]; intros self Hplain.
  - exists self. split; reflexivity.
  - inversion Hplain as [|? ? Hk0 Hrest]; subst. cbn [fst] in Hk0.
    cbn [for_each].
    change (set_item_of ca self (k0, v0))
      with (if hasattr ca self k0 then setattr self k0 v0 else Ok self).
    destruct (hasattr ca self k0) eqn:Hattr.
    + rewrite (setattr_plain _ _ _ Hk0). cbn [mbind result_bind].
      destruct (IH (<[k0 := v0]> self) Hrest) as (self' & Hrun & Hget).
      exists self'. split; [exact Hrun|].
      intros k. rewrite Hget. cbn [dict_get].
      assert (Hsame : hasattr ca (<[k0 := v0]> self) k = hasattr ca self k).
      { destruct (decide (k0 = k)) as [<-|Hne].
        - rewrite Hattr. unfold hasattr. rewrite lookup_insert_eq. reflexivity.
        - apply hasattr_same_domain. rewrite lookup_insert_ne by exact Hne. tauto. }
      rewrite Hsame.
      destruct (dict_get rest k) as [v|].
      * destruct (hasattr ca self k) eqn:Hk; [reflexivity|].
        apply lookup_insert_ne. intros ->. congruence.
      * destruct (String.eqb k0 k) eqn:Hk.
        -- apply String.eqb_eq in Hk as <-. rewrite Hattr. apply lookup_insert_eq.
        -- apply String.eqb_neq in Hk. apply lookup_insert_ne. exact Hk.
    + cbn [mbind result_bind].
      destruct (IH self Hrest) as (self' & Hrun & Hget).
      exists self'. split; [exact Hrun|].
      intros k. rewrite Hget. cbn [dict_get].
      destruct (dict_get rest k) as [v|]; [reflexivity|].
      destruct (String.eqb k0 k) eqn:Hk; [|reflexivity].
      apply String.eqb_eq in Hk as <-. rewrite Hattr. reflexivity.
Qed.

Lemma field_not_descriptor k : k ∈ fields -> mem k descriptors = false.
Proof.
  unfold fields. intros Hk.
  repeat (apply elem_of_cons in Hk as [->|Hk]; [reflexivity|]).
  inversion Hk.
Qed.

Lemma plain_key_not_descriptor ca self k :
  plain_key ca self k -> mem k descriptors = false.
Proof.
  intros [Hk|Hk]; [apply field_not_descriptor, Hk|].
  apply (hasattr_false_not_descriptor _ _ _ Hk).
Qed.

Lemma load_from_file_not_a_field : "load_from_file" ∉ fields.
Proof.
  unfold fields. intros Hk.
  repeat (apply elem_of_cons in Hk as [[=]|Hk]). inversion Hk.
Qed.

Lemma load_file_of_loads `{Runtime} ca fs self f text items :
  self !! "load_from_file" = None ->
  read_text fs f = Ok text ->
  json_loads text = Some (VDict items) ->
  load_file_of ca fs self f = for_each (set_item_of ca) items self.
Proof.
  unfold load_file_of, json_load. intros -> -> . cbn [mbind result_bind].
  intros ->. reflexivity.
Qed.

Lemma load_files_spec `{Runtime} ca fs files docs :
  Forall2 (loads_as fs) files docs ->
  forall self,
    Forall (Forall (fun kv : string * pyval => plain_key ca self kv.1)) docs ->
    (forall k, k ∈ fields -> is_Some (self !! k)) ->
    hasattr ca self "load_from_file" = true ->
    self !! "load_from_file" = None ->
    exists c,
      for_each (load_file_of ca fs) files self = Ok c
      /\ (forall k, k ∈ fields -> c !! k = last_setting docs k (self !! k))
      /\ (forall k, k ∉ fields -> c !! k = self !! k).
Proof.
  induction 1 as [|f items files docs (text & Hread & Hparse) _ IH];
    intros self Hkeys Hfields Hmethod Hfree.
  - exists self. repeat split; reflexivity.
  - inversion Hkeys as [|? ? Hitems Hdocs]; subst.
    cbn [for_each]. rewrite (load_file_of_loads _ _ _ _ _ _ Hfree Hread Hparse).
    destruct (set_items_spec ca items self) as (self1 & -> & Hget).
    { eapply Forall_impl; [exact Hitems|].
      intros kv. apply plain_key_not_descriptor. }
    cbn [mbind result_bind].
    assert (Hfield1 : forall k, k ∈ fields ->
              self1 !! k = match dict_get items k with
                           | Some v => Some v | None => self !! k end).
    { intros k Hk. rewrite Hget.
      destruct (dict_get items k); [|reflexivity].
      unfold hasattr. destruct (Hfields k Hk) as [v ->]. reflexivity. }
    assert (Hother1 : forall k, k ∉ fields -> self1 !! k = self !! k).
    { intros k Hk. rewrite Hget.
      destruct (dict_get items k) as [v|] eqn:Hv; [|reflexivity].
      destruct (dict_get_Some_key items k) as [v' Hin]; [rewrite Hv; eexists; reflexivity|].
      rewrite Forall_forall in Hitems.
      destruct (Hitems _ Hin) as [Hf|Hf]; [contradiction|].
      cbn [fst] in Hf. rewrite Hf. reflexivity. }
    assert (Hdom : forall k, is_Some (self1 !! k) <-> is_Some (self !! k)).
    { intros k. destruct (decide (k ∈ fields)) as [Hk|Hk].
      - rewrite (Hfield1 k Hk). destruct (Hfields k Hk) as [v ->].
        destruct (dict_get items k); split; intros _; eexists; reflexivity.
      - rewrite (Hother1 k Hk). tauto. }
    destruct (IH self1) as (c & Hrun & Hc & Hother).
    + eapply Forall_impl; [exact Hdocs|]. intros doc Hdoc.
      eapply Forall_impl; [exact Hdoc|]. intros kv [Hk|Hk]; [left; exact Hk|].
      right. rewrite (hasattr_same_domain ca self1 self _ (Hdom _)). exact Hk.
    + intros k Hk. apply Hdom, Hfields, Hk.
    + rewrite (hasattr_same_domain ca self1 self _ (Hdom _)). exact Hmethod.
    + rewrite (Hother1 _ load_from_file_not_a_field). exact Hfree.
    + exists c. split; [exact Hrun|]. split.
      * intros k Hk. rewrite (Hc k Hk), (Hfield1 k Hk). reflexivity.
      * intros k Hk. rewrite (Hother k Hk). apply Hother1, Hk.
Qed.

(** C5 (as amended).  Configuration files that are loaded in order, and
    whose keys are each one of the nine fields or name no attribute of the
    configuration object, load without error in both entry scripts; every
    field then holds exactly the value of the last file that sets it
    (a list value replaces the list, it is not concatenated to it), a field
    no file sets keeps its value, and the other keys leave no trace. *)
Theorem C5_config_files_replace_fields `{Runtime} fs files docs self :
  Forall2 (loads_as fs) files docs ->
  Forall (Forall (fun kv : string * pyval =>
            plain_key Ggen.class_attrs self kv.1
            /\ plain_key Ggrama.class_attrs self kv.1)) docs ->
  (forall k, k ∈ fields -> is_Some (self !! k)) ->
  self !! "load_from_file" = None ->
  (exists c,
     for_each (Ggen.load_config_file fs) files self = Ok c
     /\ (forall k, k ∈ fields -> c !! k = last_setting docs k (self !! k))
     /\ (forall k, k ∉ fields -> c !! k = self !! k))
  /\
  (exists c,
     for_each (Ggrama.load_config_file fs) files self = Ok c
     /\ (forall k, k ∈ fields -> c !! k = last_setting docs k (self !! k))
     /\ (forall k, k ∉ fields -> c !! k = self !! k)).
Proof.
  intros Hfiles Hkeys Hfields Hfree. split.
  - change (Ggen.load_config_file fs) with (load_file_of Ggen.class_attrs fs).
    apply load_files_spec; try assumption.
    + eapply Forall_impl; [exact Hkeys|]. intros doc Hdoc.
      eapply Forall_impl; [exact Hdoc|]. intros kv [Hk _]. exact Hk.
    + unfold hasattr. rewrite Hfree. reflexivity.
  - change (Ggrama.load_config_file fs) with (load_file_of Ggrama.class_attrs fs).
    apply load_files_spec; try assumption.
    + eapply Forall_impl; [exact Hkeys|]. intros doc Hdoc.
      eapply Forall_impl; [exact Hdoc|]. intros kv [_ Hk]. exact Hk.
    + unfold hasattr. rewrite Hfree. reflexivity.
Qed.

Lemma mem_fields k : mem k fields = true -> k ∈ fields.
Proof.
  unfold mem. intros Hk. apply existsb_exists in Hk as (k' & Hin & Heq).
  apply String.eqb_eq in Heq as ->. apply list_elem_of_In. exact Hin.
Qed.

Lemma C5_config_files_replace_fields_witness :
  exists c,
    for_each (Ggen.load_config_file (H := Demo.rt) Demo.fs_machine)
      ["/c/names.json"; "/c/paths.json"] Demo.config_machine = Ok c
    /\ c !! "model_name" = Some (VStr "other.gguf")
    /\ c !! "schema_name" = Some (VStr "answer")
    /\ Demo.config_machine !! "model_paths"
       = Some (VList [VPath "/usr/share/ggrama/models"])
    /\ c !! "model_paths" = Some (VList [VStr "/srv/models"])
    /\ c !! "schema_paths" = Some (VList [VPath "/usr/share/ggrama/schemas"])
    /\ c !! "colour" = None.
Proof.
  assert (Hfiles : Forall2 (loads_as (H := Demo.rt) Demo.fs_machine)
            ["/c/names.json"; "/c/paths.json"]
            [[("model_name", VStr "m.gguf"); ("schema_name", VStr "answer");
              ("colour", VStr "blue")];
             [("model_name", VStr "other.gguf");
              ("model_paths", VList [VStr "/srv/models"])]]).
  { repeat constructor; eexists; split; run. }
  assert (Hkeys : Forall (Forall (fun kv : string * pyval =>
            plain_key (Ggen.class_attrs (H := Demo.rt)) Demo.config_machine kv.1
            /\ plain_key (Ggrama.class_attrs (H := Demo.rt)) Demo.config_machine kv.1))
            [[("model_name", VStr "m.gguf"); ("schema_name", VStr "answer");
              ("colour", VStr "blue")];
             [("model_name", VStr "other.gguf");
              ("model_paths", VList [VStr "/srv/models"])]]).
  { repeat constructor;
      first [ left; apply mem_fields; reflexivity | right; run ]. }
  assert (Hfields : forall k, k ∈ fields -> is_Some (Demo.config_machine !! k)).
  { unfold fields. intros k Hk.
    repeat (apply elem_of_cons in Hk as [->|Hk]; [eexists; run|]).
    inversion Hk. }
  assert (Hfree : Demo.config_machine !! "load_from_file" = None) by run.
  destruct (C5_config_files_replace_fields (H := Demo.rt) Demo.fs_machine
              _ _ Demo.config_machine Hfiles Hkeys Hfields Hfree)
    as ((c & Hrun & Hset & Hother) & _).
  exists c. split; [exact Hrun|].
  rewrite !Hset by (apply mem_fields; reflexivity).
  rewrite Hother by (unfold fields; intros Hk;
                     repeat (apply elem_of_cons in Hk as [[=]|Hk]); inversion Hk).
  repeat split; run.
Defined.

(** The claim as stated fails on a key that names a method.  The first
    file is the JSON object with the one key [load_from_file]: that key is
    no field of the configuration, yet [hasattr] holds for it, the value is
    stored on the instance, and loading the second file raises [TypeError]
    because the name no longer denotes the method. *)
Lemma C5_method_name_key_is_not_ignored :
  mem "load_from_file" fields = false
  /\ json_loads (Runtime := Demo.rt) Demo.doc_shadow
     = Some (VDict [("load_from_file", VStr "x")])
  /\ Ggen.defaults !! "load_from_file" = None
  /\ (c ← Ggen.load_from_file (H := Demo.rt) Demo.fs_machine Ggen.defaults "/c/shadow.json";
      Ok (c !! "load_from_file")) = Ok (Some (VStr "x"))
  /\ for_each (Ggen.load_config_file (H := Demo.rt) Demo.fs_machine)
       ["/c/shadow.json"; "/c/names.json"] Ggen.defaults = Raise TypeError
  /\ for_each (Ggrama.load_config_file (H := Demo.rt) Demo.fs_machine)
       ["/c/shadow.json"; "/c/names.json"] Ggrama.defaults = Raise TypeError.
Proof. repeat split; run. Qed.

(** ** C8: a model answer that is not JSON *)

Lemma prog_bind_reading {A B : Type} (f : filesystem -> result A)
    (k : A -> prog B) (w : world) (a : A) :
  f (files w) = Ok a -> (reading f ≫= k) w = k a w.
Proof. unfold mbind, prog_bind, reading. intros ->. reflexivity. Qed.

Lemma prog_bind_pure {A B : Type} (r : result A) (k : A -> prog B) (w : world) :
  (pure r ≫= k) w = match r with Ok a => k a w | Raise e => (Raise e, w) end.
Proof. unfold mbind, prog_bind, pure. destruct r; reflexivity. Qed.

Lemma ggen_main_from_generation `{Runtime} env argv w llm template prompt
    input_data grammar :
  reaches_generation env argv w llm template prompt input_data grammar ->
  Ggen.main env argv w =
    match Ggen.generate_with_grammar llm (VStr template) (VStr prompt)
            (VStr input_data) grammar with
    | Ok value =>
        match Ggen.write_result (Ggen.parse_args argv) value w with
        | (Ok _, w') => (Ok 0, w')
        | (Raise e, w') => (Raise e, w')
        end
    | Raise e => (Raise e, w)
    end.
Proof.
  intros (config0 & config & sel & model_path & schema & Hconfig0 & Hconfig
          & Hsel & Hinput & -> & Hprompt & Hres & Hschema & Hgrammar & Hllm).
  unfold Ggen.main.
  rewrite (prog_bind_reading _ _ _ _ Hconfig0).
  rewrite (prog_bind_reading _ _ _ _ Hconfig).
  rewrite prog_bind_pure, Hsel.
  assert (Hin : forall (B : Type) (k : string -> prog B),
            (match given (input_file (Ggen.parse_args argv)) with
             | Some f => reading (fun fs => read_text fs f)
             | None => mret ""
             end ≫= k) w = k input_data w).
  { intros B k. destruct (given (input_file (Ggen.parse_args argv))) as [f|].
    - apply prog_bind_reading, Hinput.
    - injection Hinput as <-. reflexivity. }
  rewrite Hin, Hprompt.
  rewrite (prog_bind_reading _ _ _ _ Hres). cbn beta iota.
  rewrite Hschema. cbn [negb].
  rewrite prog_bind_pure, Hgrammar, prog_bind_pure, Hllm, prog_bind_pure.
  destruct (Ggen.generate_with_grammar llm (VStr template)
              (VStr (strip (join_words (Py.prompt (Ggen.parse_args argv)))))
              (VStr input_data) grammar); reflexivity.
Qed.

(** When the answer of the model is a [str] that [json.loads] rejects,
    [generate_with_grammar] raises [JSONDecodeError]. *)
Lemma ggen_generate_malformed `{Runtime} llm template prompt input_data grammar
    full_prompt response text :
  format (VStr template) []
    [("prompt", VStr prompt); ("input_data", VStr input_data)] = Ok full_prompt ->
  llama_call llm full_prompt grammar (-1) = Ok response ->
  response_text response = Ok (VStr text) ->
  json_loads text = None ->
  Ggen.generate_with_grammar llm (VStr template) (VStr prompt) (VStr input_data)
    grammar = Raise JSONDecodeError.
Proof.
  unfold Ggen.generate_with_grammar, response_text. intros -> Hcall Htext Hbad.
  cbn [mbind result_bind]. rewrite Hcall. cbn [mbind result_bind].
  destruct (getitem_key response "choices") as [choices|]; [|discriminate].
  cbn [mbind result_bind] in *.
  destruct (getitem_0 choices) as [choice|]; [|discriminate].
  cbn [mbind result_bind] in *. rewrite Htext. cbn [mbind result_bind].
  unfold json_loads_val, json_load. rewrite Hbad. reflexivity.
Qed.

(** C8.  When a run of ggen gets as far as the generation call and the text
    the model returns is not valid JSON, [main] ends with
    [json.JSONDecodeError] (the malformed-output failure) and the world is
    the one it started in: nothing was written to an output file, nothing
    was printed and nothing was logged. *)
Theorem C8_malformed_output_writes_nothing `{Runtime} env argv w llm template
    prompt input_data grammar full_prompt response text :
  reaches_generation env argv w llm template prompt input_data grammar ->
  format (VStr template) []
    [("prompt", VStr prompt); ("input_data", VStr input_data)] = Ok full_prompt ->
  llama_call llm full_prompt grammar (-1) = Ok response ->
  response_text response = Ok (VStr text) ->
  json_loads text = None ->
  Ggen.main env argv w = (Raise JSONDecodeError, w).
Proof.
  intros Hreach Hformat Hcall Htext Hbad.
  rewrite (ggen_main_from_generation _ _ _ _ _ _ _ _ Hreach).
  rewrite (ggen_generate_malformed _ _ _ _ _ _ _ _ Hformat Hcall Htext Hbad).
  reflexivity.
Qed.

Lemma C8_malformed_output_writes_nothing_witness :
  Ggen.main (H := Demo.rt_malformed) Demo.env Demo.args_ask
    (Demo.world_of Demo.fs_machine)
  = (Raise JSONDecodeError, Demo.world_of Demo.fs_machine).
Proof.
  apply (C8_malformed_output_writes_nothing (H := Demo.rt_malformed)
           Demo.env Demo.args_ask (Demo.world_of Demo.fs_machine)
           "/usr/share/ggrama/models/m.gguf" Demo.template_qa "2+2=" ""
           (VDict [("type", VStr "object")]) Demo.prompt_ask
           (VDict [("choices", VList [VDict [("text", VStr "answer: 4")]])])
           "answer: 4").
  - exists Demo.config_machine, Demo.config_ask, Demo.sel_ask,
      "/usr/share/ggrama/models/m.gguf", (VDict [("type", VStr "object")]).
    repeat split; run.
  - run.
  - run.
  - run.
  - run.
Defined.

(** With the same inputs and a model whose answer is a JSON document, the
    run ends with exit code 0 and prints the document. *)
Lemma ggen_main_prints_well_formed_output :
  Ggen.main (H := Demo.rt) Demo.env Demo.args_ask (Demo.world_of Demo.fs_machine)
  = (Ok 0,
     {| files := Demo.fs_machine;
        stdout := [Demo.doc_answer];
        log := [] |}).
Proof. run. Qed.

(** ** The configuration object the constructors build *)

(** A configuration ggrama manages to build is the one of the plain
    assignments: no directory was added to any list. *)
Lemma ggrama_load_resources_adds_nothing fs directory c :
  Ggrama._load_resources_from_directory fs Ggrama.defaults directory = Ok c ->
  c = Ggrama.defaults.
Proof.
  unfold Ggrama._load_resources_from_directory.
  destruct (is_dir fs directory); [|intros [= <-]; reflexivity].
  apply (for_each_invariant (fun s => s = Ggrama.defaults)); [|reflexivity].
  intros s subdir s' Hsub -> . unfold Ggrama.add_subdir.
  destruct (is_dir fs (joinpath directory subdir)); [|intros [= <-]; reflexivity].
  repeat (apply elem_of_cons in Hsub as [->|Hsub]; [discriminate|]).
  inversion Hsub.
Qed.

Lemma ggrama_Config_is_defaults env fs c :
  Ggrama.Config env fs = Ok c -> c = Ggrama.defaults.
Proof.
  unfold Ggrama.Config, Ggrama.load_defaults_from_standard_directories.
  destruct (package_resources env) as [resources_path|e];
    cbn [mbind result_bind]; [|discriminate].
  destruct (Ggrama._load_resources_from_directory fs Ggrama.defaults resources_path)
    as [c1|e] eqn:H1; cbn [mbind result_bind]; [|discriminate].
  apply ggrama_load_resources_adds_nothing in H1 as ->.
  apply (for_each_invariant (fun s => s = Ggrama.defaults)); [|reflexivity].
  intros s d s' _ ->. apply ggrama_load_resources_adds_nothing.
Qed.

Lemma append_to_same_attributes c c' attr v :
  same_attributes c -> append_to c attr v = Ok c' -> same_attributes c'.
Proof.
  unfold append_to, getattr. intros Hc Happ k.
  destruct (c !! attr) as [[| | | | |items| |]|] eqn:Hattr; cbn in Happ;
    try discriminate.
  injection Happ as <-. rewrite <- (Hc k).
  destruct (decide (attr = k)) as [<-|Hne].
  - rewrite lookup_insert_eq, Hattr. split; intros _; eexists; reflexivity.
  - rewrite lookup_insert_ne by exact Hne. tauto.
Qed.

Lemma ggen_add_resources_same_attributes fs c c' directory :
  same_attributes c ->
  Ggen._add_resources_from_directory fs c directory = Ok c' ->
  same_attributes c'.
Proof.
  unfold Ggen._add_resources_from_directory. intros Hc Hrun.
  destruct (is_dir fs directory); [|injection Hrun as <-; exact Hc].
  revert Hrun. apply for_each_invariant; [|exact Hc].
  intros s subdir s' _ Hs. unfold Ggen.add_subdir.
  destruct (is_dir fs (joinpath directory subdir));
    [|intros [= <-]; exact Hs].
  repeat (match goal with |- context [if ?b then _ else _] => destruct b end);
    try (intros [= <-]; exact Hs);
    apply (append_to_same_attributes _ _ _ _ Hs).
Qed.

(** A configuration built by either constructor holds the nine fields, and
    nothing shadows its [load_from_file] method. *)
Lemma Config_holds_the_fields env fs c :
  Ggen.Config env fs = Ok c \/ Ggrama.Config env fs = Ok c ->
  (forall k, k ∈ fields -> is_Some (c !! k)) /\ c !! "load_from_file" = None.
Proof.
  intros Hrun.
  assert (Hc : same_attributes c).
  { destruct Hrun as [Hrun|Hrun].
    - revert Hrun.
      unfold Ggen.Config, Ggen.load_defaults_from_standard_directories.
      destruct (package_resources env) as [resources_path|e];
        cbn [mbind result_bind]; [|discriminate].
      destruct (Ggen._add_resources_from_directory fs Ggen.defaults resources_path)
        as [c1|e] eqn:H1; cbn [mbind result_bind]; [|discriminate].
      apply for_each_invariant.
      + intros s d s' _. apply ggen_add_resources_same_attributes.
      + apply (ggen_add_resources_same_attributes _ _ _ _ (fun k => iff_refl _) H1).
    - apply ggrama_Config_is_defaults in Hrun as ->. intros k. reflexivity. }
  split.
  - unfold fields. intros k Hk. apply Hc.
    repeat (apply elem_of_cons in Hk as [->|Hk]; [eexists; reflexivity|]).
    inversion Hk.
  - destruct (c !! "load_from_file") as [v|] eqn:Hv; [|reflexivity].
    destruct (proj1 (Hc "load_from_file")) as [? [=]]. rewrite Hv. eexists; reflexivity.
Qed.

(* ===================================================================== *)
(** * Further properties of the two scripts *)
(* ===================================================================== *)

(** ** find_model_path *)

Lemma ggrama_find_model_step fs v d rest all name :
  names_dir v d ->
  Ggrama.find_model_path_loop fs (v :: rest) all (VStr name) =
    if path_exists fs (joinpath d name) then Ok (joinpath d name)
    else Ggrama.find_model_path_loop fs rest all (VStr name).
Proof.
  intros Hv. cbn [Ggrama.find_model_path_loop].
  rewrite (path_div_str _ _ _ Hv). reflexivity.
Qed.

(** X1.  [find_model_path] returns the model of the first directory, in
    list order, that holds the name: when no directory before [d] holds it
    and [d] does, the result is the path inside [d], whatever the
    directories listed after [d] hold (they are not even required to be
    strings or paths).  Both entry scripts agree on this. *)
Theorem X1_find_model_path_first_match_wins fs pre dpre v d post name :
  Forall2 names_dir pre dpre ->
  Forall (fun p => path_exists fs (joinpath p name) = false) dpre ->
  names_dir v d ->
  path_exists fs (joinpath d name) = true ->
  Ggen.find_model_path fs (VList (pre ++ v :: post)) (VStr name)
    = Ok (joinpath d name)
  /\ Ggrama.find_model_path fs (VList (pre ++ v :: post)) (VStr name)
    = Ok (joinpath d name).
Proof.
  intros Hpre Hno Hv Hd.
  unfold Ggen.find_model_path, Ggrama.find_model_path.
  cbn [is_none py_iter mbind result_bind].
  generalize (VList (pre ++ v :: post)) as all. intros all.
  induction Hpre as [|u e pre dpre Hu _ IH]; cbn [app].
  - rewrite (find_model_step _ _ _ _ _ _ Hv),
            (ggrama_find_model_step _ _ _ _ _ _ Hv), Hd.
    split; reflexivity.
  - inversion Hno as [|? ? He Hno']; subst.
    rewrite (find_model_step _ _ _ _ _ _ Hu),
            (ggrama_find_model_step _ _ _ _ _ _ Hu), He.
    apply IH, Hno'.
Qed.

Lemma X1_find_model_path_first_match_wins_witness :
  Ggen.find_model_path Demo.fs_machine
    (VList ([VStr "/srv/models"] ++ VPath "/usr/share/ggrama/models"
              :: [VStr "/opt/models"; VInt 7])) (VStr "m.gguf")
    = Ok "/usr/share/ggrama/models/m.gguf"
  /\ Ggrama.find_model_path Demo.fs_machine
    (VList ([VStr "/srv/models"] ++ VPath "/usr/share/ggrama/models"
              :: [VStr "/opt/models"; VInt 7])) (VStr "m.gguf")
    = Ok "/usr/share/ggrama/models/m.gguf".
Proof.
  assert (Hpre : Forall2 names_dir [VStr "/srv/models"] ["/srv/models"])
    by (repeat constructor).
  assert (Hno : Forall (fun p => path_exists Demo.fs_machine (joinpath p "m.gguf") = false)
                  ["/srv/models"]) by (repeat constructor).
  exact (X1_find_model_path_first_match_wins Demo.fs_machine
           [VStr "/srv/models"] ["/srv/models"]
           (VPath "/usr/share/ggrama/models") "/usr/share/ggrama/models"
           [VStr "/opt/models"; VInt 7] "m.gguf"
           Hpre Hno (names_dir_path _) eq_refl).
Defined.

Lemma ggen_find_model_loop_sound fs paths all name p :
  Ggen.find_model_path_loop fs paths all name = Ok p -> path_exists fs p = true.
Proof.
  induction paths as [|v paths IH]; cbn [Ggen.find_model_path_loop]; [discriminate|].
  destruct (path_div v name) as [q|e]; cbn [mbind result_bind]; [|discriminate].
  destruct (path_exists fs q) eqn:Hq; [|exact IH].
  intros [= <-]. exact Hq.
Qed.

Lemma ggrama_find_model_loop_sound fs paths all name p :
  Ggrama.find_model_path_loop fs paths all name = Ok p -> path_exists fs p = true.
Proof.
  induction paths as [|v paths IH]; cbn [Ggrama.find_model_path_loop]; [discriminate|].
  destruct (path_div v name) as [q|e]; cbn [mbind result_bind]; [|discriminate].
  destruct (path_exists fs q) eqn:Hq; [|exact IH].
  intros [= <-]. exact Hq.
Qed.

(** X2.  Whatever values are passed for the search paths and the name (a
    list, a string, a value of the wrong type), a path that
    [find_model_path] returns exists in the file system: the function
    never answers with a path it did not find. *)
Theorem X2_find_model_path_returns_existing_path fs (model_paths model_name : pyval) p :
  Ggen.find_model_path fs model_paths model_name = Ok p
  \/ Ggrama.find_model_path fs model_paths model_name = Ok p ->
  path_exists fs p = true.
Proof.
  unfold Ggen.find_model_path, Ggrama.find_model_path.
  destruct (is_none model_name); [intros [|]; discriminate|].
  destruct (py_iter model_paths) as [paths|e]; cbn [mbind result_bind];
    [|intros [|]; discriminate].
  intros [Hrun|Hrun].
  - apply (ggen_find_model_loop_sound _ _ _ _ _ Hrun).
  - apply (ggrama_find_model_loop_sound _ _ _ _ _ Hrun).
Qed.

Lemma X2_find_model_path_returns_existing_path_witness :
  path_exists Demo.fs_machine "/opt/models/m.gguf" = true.
Proof.
  apply (X2_find_model_path_returns_existing_path Demo.fs_machine
           (VDict [("/opt/models", VNone)]) (VPath "m.gguf")).
  left. reflexivity.
Defined.

(** ** Config(): what the scan of the default directories collects *)

Lemma not_search_path_field k field :
  field ∈ search_path_fields -> k ∉ search_path_fields -> field <> k.
Proof. intros Hf Hk ->. contradiction. Qed.

Lemma append_to_lists c lm ls lt v :
  holds_lists c lm ls lt ->
  (exists c', append_to c "model_paths" v = Ok c' /\ holds_lists c' (lm ++ [v]) ls lt)
  /\ (exists c', append_to c "schema_paths" v = Ok c' /\ holds_lists c' lm (ls ++ [v]) lt)
  /\ (exists c', append_to c "prompt_template_paths" v = Ok c'
                 /\ holds_lists c' lm ls (lt ++ [v])).
Proof.
  intros (Hm & Hs & Ht & Hother). unfold append_to, getattr.
  rewrite Hm, Hs, Ht. cbn [mbind result_bind].
  repeat split; eexists; (split; [reflexivity|]); repeat split;
    try (rewrite lookup_insert_eq; reflexivity);
    try (rewrite lookup_insert_ne by discriminate; assumption);
    intros k Hk; (rewrite lookup_insert_ne;
      [apply Hother, Hk
      |apply not_search_path_field; [unfold search_path_fields; set_solver|exact Hk]]).
Qed.

Lemma ggen_scan_directory fs c d lm ls lt :
  holds_lists c lm ls lt ->
  exists c',
    Ggen._add_resources_from_directory fs c d = Ok c'
    /\ holds_lists c' (lm ++ subdir_entry fs "models" d)
         (ls ++ subdir_entry fs "schemas" d)
         (lt ++ subdir_entry fs "prompt_templates" d).
Proof.
  intros Hc. unfold Ggen._add_resources_from_directory, subdir_entry.
  destruct (is_dir fs d); cbn [andb].
  2:{ exists c. rewrite !app_nil_r. split; [reflexivity|exact Hc]. }
  cbn [for_each]. unfold Ggen.add_subdir.
  cbn [String.eqb Ascii.eqb Bool.eqb].
  destruct (is_dir fs (joinpath d "models")).
  - destruct (proj1 (append_to_lists c lm ls lt (VPath (joinpath d "models")) Hc))
      as (c1 & -> & Hc1). cbn [mbind result_bind].
    destruct (is_dir fs (joinpath d "schemas")).
    + destruct (proj1 (proj2 (append_to_lists _ _ _ _ (VPath (joinpath d "schemas")) Hc1)))
        as (c2 & -> & Hc2). cbn [mbind result_bind].
      destruct (is_dir fs (joinpath d "prompt_templates")).
      * destruct (proj2 (proj2 (append_to_lists _ _ _ _
                    (VPath (joinpath d "prompt_templates")) Hc2)))
          as (c3 & -> & Hc3). cbn [mbind result_bind].
        exists c3. split; [reflexivity|exact Hc3].
      * cbn [mbind result_bind]. exists c2. rewrite app_nil_r.
        split; [reflexivity|exact Hc2].
    + cbn [mbind result_bind].
      destruct (is_dir fs (joinpath d "prompt_templates")).
      * destruct (proj2 (proj2 (append_to_lists _ _ _ _
                    (VPath (joinpath d "prompt_templates")) Hc1)))
          as (c3 & -> & Hc3). cbn [mbind result_bind].
        exists c3. rewrite app_nil_r. split; [reflexivity|exact Hc3].
      * cbn [mbind result_bind]. exists c1. rewrite !app_nil_r.
        split; [reflexivity|exact Hc1].
  - cbn [mbind result_bind].
    destruct (is_dir fs (joinpath d "schemas")).
    + destruct (proj1 (proj2 (append_to_lists _ _ _ _ (VPath (joinpath d "schemas")) Hc)))
        as (c2 & -> & Hc2). cbn [mbind result_bind].
      destruct (is_dir fs (joinpath d "prompt_templates")).
      * destruct (proj2 (proj2 (append_to_lists _ _ _ _
                    (VPath (joinpath d "prompt_templates")) Hc2)))
          as (c3 & -> & Hc3). cbn [mbind result_bind].
        exists c3. rewrite app_nil_r. split; [reflexivity|exact Hc3].
      * cbn [mbind result_bind]. exists c2. rewrite !app_nil_r.
        split; [reflexivity|exact Hc2].
    + cbn [mbind result_bind].
      destruct (is_dir fs (joinpath d "prompt_templates")).
      * destruct (proj2 (proj2 (append_to_lists _ _ _ _
                    (VPath (joinpath d "prompt_templates")) Hc)))
          as (c3 & -> & Hc3). cbn [mbind result_bind].
        exists c3. rewrite !app_nil_r. split; [reflexivity|exact Hc3].
      * cbn [mbind result_bind]. exists c. rewrite !app_nil_r.
        split; [reflexivity|exact Hc].
Qed.

Lemma ggen_scan_directories fs (g : string -> string) dirs : forall c lm ls lt,
  holds_lists c lm ls lt ->
  exists c',
    for_each (fun self d => Ggen._add_resources_from_directory fs self (g d)) dirs c
      = Ok c'
    /\ holds_lists c' (lm ++ existing_subdirs fs "models" (g <$> dirs))
         (ls ++ existing_subdirs fs "schemas" (g <$> dirs))
         (lt ++ existing_subdirs fs "prompt_templates" (g <$> dirs)).
Proof.
  induction dirs as [|d dirs IH]; intros c lm ls lt Hc.
  - exists c. cbn. rewrite !app_nil_r. split; [reflexivity|exact Hc].
  - cbn [for_each].
    destruct (ggen_scan_directory fs c (g d) lm ls lt Hc) as (c1 & -> & Hc1).
    cbn [mbind result_bind].
    destruct (IH c1 _ _ _ Hc1) as (c' & Hrun & Hc').
    exists c'. split; [exact Hrun|].
    unfold existing_subdirs in *. cbn [fmap list_fmap List.flat_map].
    rewrite !app_assoc. exact Hc'.
Qed.

Lemma defaults_hold_lists : holds_lists Ggen.defaults [] [] [].
Proof. repeat split. Qed.

(** X3.  Once the resource directory of the package is located, ggen's
    [Config()] succeeds, and each of its three lists holds exactly the
    existing subdirectories of the scanned directories, in scanning order:
    the package resources first, then the standard directories as listed.
    A directory contributes its [models] (resp. [schemas],
    [prompt_templates]) entry when both it and that entry are directories,
    and nothing otherwise.  Every other attribute is as [__init__]
    assigned it: the six names and direct paths are [None]. *)
Theorem X3_ggen_Config_lists_existing_subdirectories_in_scan_order
    env fs resources_path :
  package_resources env = Ok resources_path ->
  exists c,
    Ggen.Config env fs = Ok c
    /\ c !! "model_paths"
       = Some (VList (existing_subdirs fs "models" (default_dirs env resources_path)))
    /\ c !! "schema_paths"
       = Some (VList (existing_subdirs fs "schemas" (default_dirs env resources_path)))
    /\ c !! "prompt_template_paths"
       = Some (VList (existing_subdirs fs "prompt_templates"
                        (default_dirs env resources_path)))
    /\ forall k, k ∉ search_path_fields -> c !! k = Ggen.defaults !! k.
Proof.
  intros Hres.
  unfold Ggen.Config, Ggen.load_defaults_from_standard_directories.
  rewrite Hres. cbn [mbind result_bind].
  destruct (ggen_scan_directory fs Ggen.defaults resources_path [] [] []
              defaults_hold_lists) as (c1 & -> & Hc1).
  cbn [mbind result_bind].
  destruct (ggen_scan_directories fs (expanduser env) Ggen.standard_dirs c1 _ _ _ Hc1)
    as (c & Hrun & Hc).
  exists c. split; [exact Hrun|]. exact Hc.
Qed.

Lemma X3_ggen_Config_lists_existing_subdirectories_in_scan_order_witness :
  exists c,
    Ggen.Config Demo.env Demo.fs_machine = Ok c
    /\ c !! "model_paths" = Some (VList [VPath "/usr/share/ggrama/models"])
    /\ c !! "schema_paths" = Some (VList [VPath "/usr/share/ggrama/schemas"])
    /\ c !! "prompt_template_paths"
       = Some (VList [VPath "/pkg/ggen/resources/prompt_templates"])
    /\ forall k, k ∉ search_path_fields -> c !! k = Ggen.defaults !! k.
Proof.
  exact (X3_ggen_Config_lists_existing_subdirectories_in_scan_order
           Demo.env Demo.fs_machine "/pkg/ggen/resources" eq_refl).
Defined.

Lemma ggrama_scan_directory fs d :
  ggrama_scan_outcome fs [d]
    (Ggrama._load_resources_from_directory fs Ggrama.defaults d).
Proof.
  unfold ggrama_scan_outcome, Ggrama._load_resources_from_directory,
    has_resource_subdir. cbn [existsb].
  destruct (is_dir fs d); cbn [andb orb]; [|split; reflexivity].
  cbn [for_each]. unfold Ggrama.add_subdir.
  destruct (is_dir fs (joinpath d "models")); cbn [orb];
    [split; [reflexivity|eexists; reflexivity]|].
  cbn [mbind result_bind].
  destruct (is_dir fs (joinpath d "schemas")); cbn [orb];
    [split; [reflexivity|eexists; reflexivity]|].
  cbn [mbind result_bind].
  destruct (is_dir fs (joinpath d "prompt_templates")); cbn [orb];
    [split; [reflexivity|eexists; reflexivity]|].
  split; reflexivity.
Qed.

Lemma ggrama_scan_directories fs (g : string -> string) dirs :
  ggrama_scan_outcome fs (g <$> dirs)
    (for_each (fun self d => Ggrama._load_resources_from_directory fs self (g d))
       dirs Ggrama.defaults).
Proof.
  induction dirs as [|d dirs IH]; [split; reflexivity|].
  cbn [for_each fmap list_fmap].
  pose proof (ggrama_scan_directory fs (g d)) as Hd.
  unfold ggrama_scan_outcome in *. cbn [existsb] in *.
  destruct (Ggrama._load_resources_from_directory fs Ggrama.defaults (g d))
    as [c1|e]; cbn [mbind result_bind].
  - destruct Hd as [-> Hd]. rewrite orb_false_r in Hd. rewrite Hd. exact IH.
  - destruct Hd as [Hd Hattr]. rewrite orb_false_r in Hd. rewrite Hd.
    split; [reflexivity|exact Hattr].
Qed.

(** X4.  Once the resource directory of the package is located, ggrama's
    [Config()] returns only when no scanned directory has a [models],
    [schemas] or [prompt_templates] directory in it, and the configuration
    is then the one of the plain assignments, with three empty lists.  As
    soon as one scanned directory has such a subdirectory the constructor
    raises [AttributeError]: it looks the list up under a name
    ([models_paths], ...) the instance does not have. *)
Theorem X4_ggrama_Config_raises_on_any_resource_subdirectory
    env fs resources_path :
  package_resources env = Ok resources_path ->
  ggrama_scan_outcome fs (default_dirs env resources_path) (Ggrama.Config env fs).
Proof.
  intros Hres.
  unfold Ggrama.Config, Ggrama.load_defaults_from_standard_directories, default_dirs.
  rewrite Hres. cbn [mbind result_bind].
  pose proof (ggrama_scan_directory fs resources_path) as H1.
  pose proof (ggrama_scan_directories fs (expanduser env) Ggrama.standard_dirs) as H2.
  change Ggrama.standard_dirs with Ggen.standard_dirs in H2.
  unfold ggrama_scan_outcome in *. cbn [existsb] in *.
  destruct (Ggrama._load_resources_from_directory fs Ggrama.defaults resources_path)
    as [c1|e]; cbn [mbind result_bind].
  - destruct H1 as [-> H1]. rewrite orb_false_r in H1. rewrite H1. exact H2.
  - destruct H1 as [H1 Hattr]. rewrite orb_false_r in H1. rewrite H1.
    split; [reflexivity|exact Hattr].
Qed.

Lemma X4_ggrama_Config_raises_on_any_resource_subdirectory_witness :
  ggrama_scan_outcome Demo.fs_machine (default_dirs Demo.env "/pkg/ggen/resources")
    (Ggrama.Config Demo.env Demo.fs_machine).
Proof.
  exact (X4_ggrama_Config_raises_on_any_resource_subdirectory
           Demo.env Demo.fs_machine "/pkg/ggen/resources" eq_refl).
Defined.

(** ** main: how a run can end *)

Lemma prog_bind_reading_cases {A B : Type} (f : filesystem -> result A)
    (k : A -> prog B) (w : world) :
  (reading f ≫= k) w =
    match f (files w) with Ok a => k a w | Raise e => (Raise e, w) end.
Proof. unfold mbind, prog_bind, reading. destruct (f (files w)); reflexivity. Qed.

Lemma raised_outcome `{Runtime} argv w e : run_outcome argv w (Raise e, w).
Proof. destruct e; first [exact I | reflexivity]. Qed.

Lemma logged_then_one `{Runtime} argv level text w :
  run_outcome argv w ((logger level text ≫= fun _ => mret 1) w).
Proof.
  left. split; [reflexivity|]. repeat split. eexists. reflexivity.
Qed.

(** [open(p, 'w')] case by case, for a plain path. *)
Lemma plain_path_not_empty p : plain_path p = true -> String.eqb p "" = false.
Proof. destruct p; [discriminate|reflexivity]. Qed.

Lemma open_w_regular_file fs p content :
  plain_path p = true -> fs !! p = Some (File content) -> open_w fs p = Ok ().
Proof.
  intros Hp Hfile. unfold open_w.
  rewrite (plain_path_not_empty _ Hp), Hp, Hfile. reflexivity.
Qed.

Lemma open_w_directory fs p :
  plain_path p = true -> fs !! p = Some Dir ->
  open_w fs p = Raise (IsADirectoryError p).
Proof.
  intros Hp Hdir. unfold open_w.
  rewrite (plain_path_not_empty _ Hp), Hp, Hdir. reflexivity.
Qed.

Lemma open_w_new_file fs p parent :
  plain_path p = true -> fs !! p = None ->
  last (ancestors p) = Some parent -> is_dir fs parent = true ->
  open_w fs p = Ok ().
Proof.
  intros Hp Hnew Hparent Hdir. unfold open_w, create_entry.
  rewrite (plain_path_not_empty _ Hp), Hp, Hnew, Hparent, Hdir. reflexivity.
Qed.

Lemma open_w_top_level fs p :
  plain_path p = true -> fs !! p = None -> ancestors p = [] ->
  open_w fs p = Ok ().
Proof.
  intros Hp Hnew Hparent. unfold open_w, create_entry.
  rewrite (plain_path_not_empty _ Hp), Hp, Hnew, Hparent. reflexivity.
Qed.

Lemma open_w_missing_directory fs p parent :
  plain_path p = true -> fs !! p = None ->
  last (ancestors p) = Some parent -> is_dir fs parent = false ->
  existsb (is_file fs) (ancestors p) = false ->
  open_w fs p = Raise (FileNotFoundError [Lit p]).
Proof.
  intros Hp Hnew Hparent Hdir Hfile. unfold open_w, create_entry.
  rewrite (plain_path_not_empty _ Hp), Hp, Hnew, Hparent, Hdir, Hfile. reflexivity.
Qed.

Lemma open_w_under_a_file fs p parent :
  plain_path p = true -> fs !! p = None ->
  last (ancestors p) = Some parent -> is_dir fs parent = false ->
  existsb (is_file fs) (ancestors p) = true ->
  open_w fs p = Raise (NotADirectoryError p).
Proof.
  intros Hp Hnew Hparent Hdir Hfile. unfold open_w, create_entry.
  rewrite (plain_path_not_empty _ Hp), Hp, Hnew, Hparent, Hdir, Hfile. reflexivity.
Qed.

(** Writing a file either raises and changes nothing, or stores the text
    at that path and changes nothing else. *)
Lemma write_file_cases p text w :
  (exists e, write_file p text w = (Raise e, w))
  \/ write_file p text w
     = (Ok (), {| files := <[p := File text]> (files w);
                  stdout := stdout w; log := log w |}).
Proof.
  unfold write_file, write_text.
  destruct (open_w (files w) p) as [[]|e]; cbn [mbind result_bind].
  - right. reflexivity.
  - left. exists e. reflexivity.
Qed.

Lemma ggen_write_result_outcome `{Runtime} argv value w :
  run_outcome argv w
    ((Ggen.write_result (Ggen.parse_args argv) value ≫= fun _ => mret 0) w).
Proof.
  unfold Ggen.write_result, mbind, prog_bind.
  change (output_file (Ggen.parse_args argv)) with (output_file argv).
  destruct (given (output_file argv)) as [out|] eqn:Hout.
  - destruct (write_file_cases out (json_dumps value None) w) as [[e ->]| ->];
      [apply raised_outcome|].
    right. split; [reflexivity|]. exists value. rewrite Hout. repeat split.
  - right. split; [reflexivity|]. exists value. rewrite Hout. repeat split.
Qed.

Lemma ggrama_write_result_outcome `{Runtime} argv value w :
  run_outcome argv w
    ((Ggrama.write_result (Ggrama.parse_args argv) value ≫= fun _ => mret 0) w).
Proof.
  unfold Ggrama.write_result, mbind, prog_bind.
  change (output_file (Ggrama.parse_args argv)) with (output_file argv).
  destruct (given (output_file argv)) as [out|] eqn:Hout.
  - destruct (write_file_cases out (json_dumps value None) w) as [[e ->]| ->];
      [apply raised_outcome|].
    right. split; [reflexivity|]. exists value. rewrite Hout. repeat split.
  - right. split; [reflexivity|]. exists value. rewrite Hout. repeat split.
Qed.

Ltac step_reading :=
  rewrite prog_bind_reading_cases;
  match goal with
  | |- context [match ?r with Ok _ => _ | Raise _ => _ end] =>
      destruct r; [|apply raised_outcome]
  end.

Ltac step_pure :=
  rewrite prog_bind_pure;
  match goal with
  | |- context [match ?r with Ok _ => _ | Raise _ => _ end] =>
      destruct r; [|apply raised_outcome]
  end.

(** X5.  Once [argparse] has turned the command line into a namespace,
    every run of ggen's [main], on any namespace, environment and file
    system, ends in one of three ways: it raises, and the world is exactly
    as it was; or it returns 1, having logged one record and changed
    nothing else; or it returns 0, having written one JSON value, to the
    output file when [-o] names one (no other file is touched, nothing is
    printed) and to standard output otherwise (no file is touched),
    without logging.  The exits of [argparse] itself, for [-h] or a
    malformed command line, come before a namespace exists and are not
    among these runs; nor is a run that leaves the modelled fragment (a
    replacement field with a conversion or a format specification, an
    output path that is not a [plain_path]), of which nothing is said. *)
Theorem X5_ggen_main_ends_in_one_of_three_ways `{Runtime} env argv w :
  run_outcome argv w (Ggen.main env argv w).
Proof.
  unfold Ggen.main.
  step_reading. step_reading. step_pure.
  assert (Hin : forall k : string -> prog Z,
            (forall input_data, run_outcome argv w (k input_data w)) ->
            run_outcome argv w
              ((match given (input_file (Ggen.parse_args argv)) with
                | Some f => reading (fun fs => read_text fs f)
                | None => mret ""
                end ≫= k) w)).
  { intros k Hk. destruct (given (input_file (Ggen.parse_args argv))) as [f|].
    - rewrite prog_bind_reading_cases.
      destruct (read_text (files w) f); [apply Hk|apply raised_outcome].
    - apply Hk. }
  apply Hin. intros input_data.
  destruct (String.eqb _ ""); [apply logged_then_one|].
  step_reading.
  match goal with p : (string * string * pyval)%type |- _ =>
    destruct p as [[prompt_template model_path] schema] end.
  cbn beta iota.
  destruct (negb (truthy schema)); [apply logged_then_one|].
  step_pure. step_pure. step_pure.
  apply ggen_write_result_outcome.
Qed.

(** X6.  The same holds of every run of ggrama's [main] on a namespace
    that [argparse] returned: it raises and leaves the world as it was, or
    returns 1 after logging one record, or returns 0 after writing one
    JSON value to the output file or to standard output.  As for ggen, the
    exits of [argparse] itself are not among these runs, and nothing is
    said of a run that leaves the modelled fragment. *)
Theorem X6_ggrama_main_ends_in_one_of_three_ways `{Runtime} env argv w :
  run_outcome argv w (Ggrama.main env argv w).
Proof.
  unfold Ggrama.main.
  step_reading. step_reading. step_pure.
  assert (Hin : forall k : string -> prog Z,
            (forall prompt, run_outcome argv w (k prompt w)) ->
            run_outcome argv w
              ((match given (input_file (Ggrama.parse_args argv)) with
                | Some f => reading (fun fs => read_text fs f)
                | None =>
                    match prompt (Ggrama.parse_args argv) with
                    | [] => mret (stdin env)
                    | words => mret (join_words words)
                    end
                end ≫= k) w)).
  { intros k Hk. destruct (given (input_file (Ggrama.parse_args argv))) as [f|].
    - rewrite prog_bind_reading_cases.
      destruct (read_text (files w) f); [apply Hk|apply raised_outcome].
    - destruct (prompt (Ggrama.parse_args argv)); apply Hk. }
  apply Hin. intros prompt.
  step_reading.
  match goal with p : (string * string * pyval)%type |- _ =>
    destruct p as [[prompt_template model_path] schema] end.
  cbn beta iota.
  destruct (negb (truthy schema)); [apply logged_then_one|].
  step_pure. step_pure. step_pure.
  apply ggrama_write_result_outcome.
Qed.

(** ** main of ggen: the two early returns *)

Lemma ggen_main_from_inputs `{Runtime} env argv w config sel input_data :
  reads_inputs env argv w config sel input_data ->
  Ggen.main env argv w =
    if String.eqb (strip (join_words (prompt argv))) "" then
      (Ok 1, logging w "CRITICAL" "No prompt given!")
    else
      match Ggen.load_resources (files w) config sel with
      | Raise e => (Raise e, w)
      | Ok (prompt_template, model_path, schema) =>
          if negb (truthy schema) then
            (Ok 1, logging w "ERROR" "Schema not provided or not found")
          else
            (grammar ← pure (grammar_from_string schema);
             llm ← pure (llama_load (VStr model_path));
             value ← pure (Ggen.generate_with_grammar llm (VStr prompt_template)
                             (VStr (strip (join_words (prompt argv))))
                             (VStr input_data) grammar);
             Ggen.write_result (Ggen.parse_args argv) value;;
             mret 0) w
      end.
Proof.
  intros (config0 & Hconfig0 & Hconfig & Hsel & Hinput).
  unfold Ggen.main.
  rewrite (prog_bind_reading _ _ _ _ Hconfig0).
  rewrite (prog_bind_reading _ _ _ _ Hconfig).
  rewrite prog_bind_pure, Hsel.
  assert (Hin : forall (B : Type) (k : string -> prog B),
            (match given (input_file (Ggen.parse_args argv)) with
             | Some f => reading (fun fs => read_text fs f)
             | None => mret ""
             end ≫= k) w = k input_data w).
  { intros B k. destruct (given (input_file (Ggen.parse_args argv))) as [f|].
    - apply prog_bind_reading, Hinput.
    - injection Hinput as <-. reflexivity. }
  rewrite Hin.
  change (prompt (Ggen.parse_args argv)) with (prompt argv).
  destruct (String.eqb (strip (join_words (prompt argv))) ""); [reflexivity|].
  unfold mbind at 1, prog_bind at 1, reading at 1.
  destruct (Ggen.load_resources (files w) config sel) as [[[t m] s]|e];
    [|reflexivity].
  destruct (negb (truthy s)); reflexivity.
Qed.

(** X7.  When the configuration is built and loaded and the input file,
    if one is given, is read, a run of ggen whose positional words are
    blank (none, or only white space) returns 1 and logs the critical
    record [No prompt given!]: the content of the input file does not
    stand in for the prompt, and no template, model or schema is looked
    up. *)
Theorem X7_ggen_blank_prompt_ends_the_run `{Runtime} env argv w config sel
    input_data :
  reads_inputs env argv w config sel input_data ->
  strip (join_words (prompt argv)) = "" ->
  Ggen.main env argv w = (Ok 1, logging w "CRITICAL" "No prompt given!").
Proof.
  intros Hinputs Hblank.
  rewrite (ggen_main_from_inputs _ _ _ _ _ _ Hinputs), Hblank. reflexivity.
Qed.

Lemma X7_ggen_blank_prompt_ends_the_run_witness :
  Ggen.main (H := Demo.rt) Demo.env Demo.args_blank (Demo.world_of Demo.fs_machine)
  = (Ok 1, logging (Demo.world_of Demo.fs_machine) "CRITICAL" "No prompt given!").
Proof.
  apply (X7_ggen_blank_prompt_ends_the_run (H := Demo.rt) Demo.env Demo.args_blank
           (Demo.world_of Demo.fs_machine) Demo.config_machine Demo.sel_blank
           Demo.doc_names).
  - exists Demo.config_machine. repeat split; run.
  - run.
Defined.

(** X8.  When the three resources are resolved and the schema is a falsy
    value (an empty [.gbnf] file, or a JSON schema that is [{}], [[]],
    [null], [false], [0] or the empty string), a run of ggen returns 1
    and logs the error record [Schema not provided or not found]: the
    model is not loaded and nothing is written. *)
Theorem X8_ggen_falsy_schema_ends_the_run `{Runtime} env argv w config sel
    input_data prompt_template model_path schema :
  reads_inputs env argv w config sel input_data ->
  strip (join_words (prompt argv)) <> "" ->
  Ggen.load_resources (files w) config sel = Ok (prompt_template, model_path, schema) ->
  truthy schema = false ->
  Ggen.main env argv w
    = (Ok 1, logging w "ERROR" "Schema not provided or not found").
Proof.
  intros Hinputs Hprompt Hres Hschema.
  rewrite (ggen_main_from_inputs _ _ _ _ _ _ Hinputs).
  apply String.eqb_neq in Hprompt. rewrite Hprompt, Hres, Hschema. reflexivity.
Qed.

Lemma X8_ggen_falsy_schema_ends_the_run_witness :
  Ggen.main (H := Demo.rt) Demo.env Demo.args_ask (Demo.world_of Demo.fs_empty_schema)
  = (Ok 1, logging (Demo.world_of Demo.fs_empty_schema) "ERROR"
             "Schema not provided or not found").
Proof.
  apply (X8_ggen_falsy_schema_ends_the_run (H := Demo.rt) Demo.env Demo.args_ask
           (Demo.world_of Demo.fs_empty_schema) Demo.config_ask Demo.sel_ask ""
           Demo.template_qa "/usr/share/ggrama/models/m.gguf" (VDict [])).
  - exists Demo.config_machine. repeat split; run.
  - discriminate.
  - run.
  - run.
Defined.

(** ** generate_with_grammar: the prompt that reaches the model *)

Lemma format_scan_literal a rest num args kwargs :
  no_braces a = true ->
  format_scan (a ++ rest) Text num args kwargs =
    (out ← format_scan rest Text num args kwargs; Ok (a ++ out)).
Proof.
  induction a as [|c a IH]; cbn [no_braces]; intros Ha.
  - change ("" ++ rest) with rest.
    destruct (format_scan rest Text num args kwargs); reflexivity.
  - apply andb_prop in Ha as [Hc Ha]. apply andb_prop in Hc as [Ho Hc].
    apply negb_true_iff in Ho, Hc.
    change (String c a ++ rest) with (String c (a ++ rest)).
    cbn [format_scan]. rewrite Ho, Hc, (IH Ha).
    destruct (format_scan rest Text num args kwargs); reflexivity.
Qed.

Lemma format_scan_literal_end a num args kwargs :
  no_braces a = true -> format_scan a Text num args kwargs = Ok a.
Proof.
  induction a as [|c a IH]; cbn [no_braces]; intros Ha; [reflexivity|].
  apply andb_prop in Ha as [Hc Ha]. apply andb_prop in Hc as [Ho Hc].
  apply negb_true_iff in Ho, Hc.
  cbn [format_scan]. rewrite Ho, Hc, (IH Ha). reflexivity.
Qed.

Lemma format_scan_prompt rest num args p i :
  format_scan ("{prompt}" ++ rest) Text num args
    [("prompt", VStr p); ("input_data", VStr i)] =
  (out ← format_scan rest Text num args [("prompt", VStr p); ("input_data", VStr i)];
   Ok (p ++ out)).
Proof. reflexivity. Qed.

Lemma format_scan_input_data rest num args p i :
  format_scan ("{input_data}" ++ rest) Text num args
    [("prompt", VStr p); ("input_data", VStr i)] =
  (out ← format_scan rest Text num args [("prompt", VStr p); ("input_data", VStr i)];
   Ok (i ++ out)).
Proof. reflexivity. Qed.

Lemma format_no_braces t args kwargs :
  no_braces t = true -> format (VStr t) args kwargs = Ok t.
Proof. intros Ht. apply format_scan_literal_end, Ht. Qed.

(** X9.  For a template made of brace-free text around one [{prompt}] and
    one [{input_data}] placeholder, ggen's [generate_with_grammar] sends
    the model the template with the two placeholders replaced by the
    prompt and the input text as they are, for every prompt and input:
    nothing is trimmed or escaped, and braces inside the prompt or the
    input are not read as placeholders. *)
Theorem X9_ggen_renders_by_literal_substitution `{Runtime}
    (llm : Llm) (grammar : Grammar) a b c p i :
  no_braces a = true -> no_braces b = true -> no_braces c = true ->
  Ggen.generate_with_grammar llm
    (VStr (a ++ "{prompt}" ++ b ++ "{input_data}" ++ c)) (VStr p) (VStr i) grammar
  = ask_model llm (a ++ p ++ b ++ i ++ c) grammar.
Proof.
  intros Ha Hb Hc. unfold Ggen.generate_with_grammar, ask_model, format.
  rewrite (format_scan_literal _ _ _ _ _ Ha), format_scan_prompt,
          (format_scan_literal _ _ _ _ _ Hb), format_scan_input_data.
  rewrite (format_scan_literal_end _ _ _ _ Hc). reflexivity.
Qed.

Lemma X9_ggen_renders_by_literal_substitution_witness :
  Ggen.generate_with_grammar (H := Demo.rt) "model"
    (VStr ("Q: " ++ "{prompt}" ++ " [" ++ "{input_data}" ++ "]"))
    (VStr " {x} and }{ ") (VStr "{prompt}") VNone
  = ask_model (H := Demo.rt) "model" ("Q: " ++ " {x} and }{ " ++ " [" ++ "{prompt}" ++ "]") VNone.
Proof.
  exact (X9_ggen_renders_by_literal_substitution (H := Demo.rt) "model" VNone
           "Q: " " [" "]" " {x} and }{ " "{prompt}" eq_refl eq_refl eq_refl).
Defined.

(** X10.  A template without any brace is sent to the model unchanged by
    both entry scripts: the prompt (and, in ggen, the input text) is
    dropped without an error, whatever it is. *)
Theorem X10_template_without_placeholders_drops_the_prompt `{Runtime}
    (llm : Llm) (grammar : Grammar) t (prompt input_data : pyval) p :
  no_braces t = true ->
  Ggen.generate_with_grammar llm (VStr t) prompt input_data grammar
    = ask_model llm t grammar
  /\ Ggrama.generate_with_grammar llm (VStr t) (VStr p) grammar
    = ask_model llm t grammar.
Proof.
  intros Ht. unfold Ggen.generate_with_grammar, Ggrama.generate_with_grammar, ask_model.
  cbn [py_iter mbind result_bind].
  rewrite !(format_no_braces _ _ _ Ht). split; reflexivity.
Qed.

Lemma X10_template_without_placeholders_drops_the_prompt_witness :
  Ggen.generate_with_grammar (H := Demo.rt) "model" (VStr "Tell me a joke.")
    (VStr "2+2=") (VList []) VNone
    = ask_model (H := Demo.rt) "model" "Tell me a joke." VNone
  /\ Ggrama.generate_with_grammar (H := Demo.rt) "model" (VStr "Tell me a joke.")
    (VStr "2+2=") VNone
    = ask_model (H := Demo.rt) "model" "Tell me a joke." VNone.
Proof.
  exact (X10_template_without_placeholders_drops_the_prompt (H := Demo.rt) "model" VNone
           "Tell me a joke." (VStr "2+2=") (VList []) "2+2=" eq_refl).
Defined.

(** ** load_from_file: how loads compose *)

Lemma loads_agree `{Runtime} ca fs files1 docs1 files2 docs2 self :
  Forall2 (loads_as fs) files1 docs1 ->
  Forall2 (loads_as fs) files2 docs2 ->
  Forall (Forall (fun kv : string * pyval => plain_key ca self kv.1)) docs1 ->
  Forall (Forall (fun kv : string * pyval => plain_key ca self kv.1)) docs2 ->
  (forall k, k ∈ fields -> is_Some (self !! k)) ->
  hasattr ca self "load_from_file" = true ->
  self !! "load_from_file" = None ->
  (forall k init, last_setting docs1 k init = last_setting docs2 k init) ->
  exists c,
    for_each (load_file_of ca fs) files1 self = Ok c
    /\ for_each (load_file_of ca fs) files2 self = Ok c.
Proof.
  intros Hf1 Hf2 Hk1 Hk2 Hfields Hmethod Hfree Hsame.
  destruct (load_files_spec ca fs files1 docs1 Hf1 self Hk1 Hfields Hmethod Hfree)
    as (c1 & Hrun1 & Hset1 & Hother1).
  destruct (load_files_spec ca fs files2 docs2 Hf2 self Hk2 Hfields Hmethod Hfree)
    as (c2 & Hrun2 & Hset2 & Hother2).
  exists c1. split; [exact Hrun1|]. rewrite Hrun2. f_equal.
  apply map_eq. intros k. destruct (decide (k ∈ fields)) as [Hk|Hk].
  - rewrite (Hset1 k Hk), (Hset2 k Hk). symmetry. apply Hsame.
  - rewrite (Hother1 k Hk), (Hother2 k Hk). reflexivity.
Qed.

Lemma dict_get_disjoint items1 items2 k :
  disjoint_keys items1 items2 ->
  dict_get items1 k = None \/ dict_get items2 k = None.
Proof.
  intros Hdis.
  destruct (dict_get items1 k) as [v1|] eqn:H1; [|left; reflexivity].
  destruct (dict_get items2 k) as [v2|] eqn:H2; [|right; reflexivity].
  destruct (dict_get_Some_key items1 k) as [u1 Hu1]; [rewrite H1; eexists; reflexivity|].
  destruct (dict_get_Some_key items2 k) as [u2 Hu2]; [rewrite H2; eexists; reflexivity|].
  destruct (Hdis k u1 u2 Hu1 Hu2).
Qed.

Lemma plain_document_split `{Runtime} self docs :
  Forall (plain_document self) docs ->
  Forall (Forall (fun kv : string * pyval => plain_key Ggen.class_attrs self kv.1)) docs
  /\ Forall (Forall (fun kv : string * pyval => plain_key Ggrama.class_attrs self kv.1)) docs.
Proof.
  intros Hdocs. split; (eapply Forall_impl; [exact Hdocs|]); intros doc Hdoc;
    (eapply Forall_impl; [exact Hdoc|]); intros kv [H1 H2]; assumption.
Qed.

(** X11.  Loading a configuration file is idempotent: for a file whose
    keys are fields of the configuration or name no attribute, loading it
    twice in a row leaves the configuration exactly as loading it once, in
    both entry scripts. *)
Theorem X11_loading_a_config_file_twice_changes_nothing `{Runtime}
    fs f items self :
  loads_as fs f items ->
  plain_document self items ->
  (forall k, k ∈ fields -> is_Some (self !! k)) ->
  self !! "load_from_file" = None ->
  (exists c,
     for_each (Ggen.load_config_file fs) [f] self = Ok c
     /\ for_each (Ggen.load_config_file fs) [f; f] self = Ok c)
  /\
  (exists c,
     for_each (Ggrama.load_config_file fs) [f] self = Ok c
     /\ for_each (Ggrama.load_config_file fs) [f; f] self = Ok c).
Proof.
  intros Hf Hplain Hfields Hfree.
  destruct (plain_document_split self [items]) as [Hgen Hgrama];
    [repeat constructor; exact Hplain|].
  destruct (plain_document_split self [items; items]) as [Hgen2 Hgrama2];
    [repeat constructor; exact Hplain|].
  assert (Hsame : forall k init,
            last_setting [items] k init = last_setting [items; items] k init).
  { intros k init. cbn. destruct (dict_get items k); reflexivity. }
  split.
  - change (Ggen.load_config_file fs) with (load_file_of Ggen.class_attrs fs).
    apply (loads_agree _ _ [f] [items] [f; f] [items; items]); try assumption;
      repeat constructor; try assumption.
    unfold hasattr. rewrite Hfree. reflexivity.
  - change (Ggrama.load_config_file fs) with (load_file_of Ggrama.class_attrs fs).
    apply (loads_agree _ _ [f] [items] [f; f] [items; items]); try assumption;
      repeat constructor; try assumption.
    unfold hasattr. rewrite Hfree. reflexivity.
Qed.

Lemma machine_config_holds_the_fields :
  (forall k, k ∈ fields -> is_Some (Demo.config_machine !! k))
  /\ Demo.config_machine !! "load_from_file" = None.
Proof.
  apply (Config_holds_the_fields Demo.env Demo.fs_machine). left. run.
Qed.

Lemma machine_documents_are_plain :
  plain_document (H := Demo.rt) Demo.config_machine
    [("model_name", VStr "m.gguf"); ("schema_name", VStr "answer");
     ("colour", VStr "blue")]
  /\ plain_document (H := Demo.rt) Demo.config_machine
       [("prompt_template_file", VStr "custom")].
Proof.
  split; repeat constructor;
    first [ left; apply mem_fields; reflexivity | right; run ].
Qed.

Lemma X11_loading_a_config_file_twice_changes_nothing_witness :
  exists c,
    for_each (Ggen.load_config_file (H := Demo.rt) Demo.fs_machine)
      ["/c/names.json"] Demo.config_machine = Ok c
    /\ for_each (Ggen.load_config_file (H := Demo.rt) Demo.fs_machine)
         ["/c/names.json"; "/c/names.json"] Demo.config_machine = Ok c.
Proof.
  assert (Hf : loads_as (H := Demo.rt) Demo.fs_machine "/c/names.json"
                 [("model_name", VStr "m.gguf"); ("schema_name", VStr "answer");
                  ("colour", VStr "blue")])
    by (eexists; split; run).
  exact (proj1 (X11_loading_a_config_file_twice_changes_nothing (H := Demo.rt)
                  Demo.fs_machine "/c/names.json" _ Demo.config_machine Hf
                  (proj1 machine_documents_are_plain)
                  (proj1 machine_config_holds_the_fields)
                  (proj2 machine_config_holds_the_fields))).
Defined.

(** X12.  Two configuration files that set no key in common can be given
    in either order: for files whose keys are fields of the configuration
    or name no attribute, both orders load without error and produce the
    same configuration, in both entry scripts. *)
Theorem X12_config_files_with_disjoint_keys_commute `{Runtime}
    fs f1 f2 items1 items2 self :
  loads_as fs f1 items1 ->
  loads_as fs f2 items2 ->
  plain_document self items1 ->
  plain_document self items2 ->
  disjoint_keys items1 items2 ->
  (forall k, k ∈ fields -> is_Some (self !! k)) ->
  self !! "load_from_file" = None ->
  (exists c,
     for_each (Ggen.load_config_file fs) [f1; f2] self = Ok c
     /\ for_each (Ggen.load_config_file fs) [f2; f1] self = Ok c)
  /\
  (exists c,
     for_each (Ggrama.load_config_file fs) [f1; f2] self = Ok c
     /\ for_each (Ggrama.load_config_file fs) [f2; f1] self = Ok c).
Proof.
  intros Hf1 Hf2 Hp1 Hp2 Hdis Hfields Hfree.
  destruct (plain_document_split self [items1; items2]) as [Hgen Hgrama];
    [repeat constructor; assumption|].
  destruct (plain_document_split self [items2; items1]) as [Hgen' Hgrama'];
    [repeat constructor; assumption|].
  assert (Hsame : forall k init,
            last_setting [items1; items2] k init = last_setting [items2; items1] k init).
  { intros k init. cbn.
    destruct (dict_get_disjoint items1 items2 k Hdis) as [-> | ->];
      destruct (dict_get items2 k), (dict_get items1 k); reflexivity. }
  split.
  - change (Ggen.load_config_file fs) with (load_file_of Ggen.class_attrs fs).
    apply (loads_agree _ _ [f1; f2] [items1; items2] [f2; f1] [items2; items1]);
      try assumption; repeat constructor; try assumption.
    unfold hasattr. rewrite Hfree. reflexivity.
  - change (Ggrama.load_config_file fs) with (load_file_of Ggrama.class_attrs fs).
    apply (loads_agree _ _ [f1; f2] [items1; items2] [f2; f1] [items2; items1]);
      try assumption; repeat constructor; try assumption.
    unfold hasattr. rewrite Hfree. reflexivity.
Qed.

Lemma X12_config_files_with_disjoint_keys_commute_witness :
  exists c,
    for_each (Ggen.load_config_file (H := Demo.rt) Demo.fs_machine)
      ["/c/names.json"; "/c/template.json"] Demo.config_machine = Ok c
    /\ for_each (Ggen.load_config_file (H := Demo.rt) Demo.fs_machine)
         ["/c/template.json"; "/c/names.json"] Demo.config_machine = Ok c.
Proof.
  assert (Hf1 : loads_as (H := Demo.rt) Demo.fs_machine "/c/names.json"
                  [("model_name", VStr "m.gguf"); ("schema_name", VStr "answer");
                   ("colour", VStr "blue")])
    by (eexists; split; run).
  assert (Hf2 : loads_as (H := Demo.rt) Demo.fs_machine "/c/template.json"
                  [("prompt_template_file", VStr "custom")])
    by (eexists; split; run).
  assert (Hdis : disjoint_keys
                   [("model_name", VStr "m.gguf"); ("schema_name", VStr "answer");
                    ("colour", VStr "blue")]
                   [("prompt_template_file", VStr "custom")]).
  { intros k v1 v2 H1 H2.
    apply elem_of_cons in H2 as [[= -> ->]|H2]; [|inversion H2].
    repeat (apply elem_of_cons in H1 as [[=]|H1]). inversion H1. }
  exact (proj1 (X12_config_files_with_disjoint_keys_commute (H := Demo.rt)
                  Demo.fs_machine "/c/names.json" "/c/template.json" _ _
                  Demo.config_machine Hf1 Hf2
                  (proj1 machine_documents_are_plain)
                  (proj2 machine_documents_are_plain) Hdis
                  (proj1 machine_config_holds_the_fields)
                  (proj2 machine_config_holds_the_fields))).
Defined.

(** ** main: where the prompt comes from, where the answer goes *)

(** X13.  When ggrama is given an input file that can be read, the content
    of that file is the prompt.  On a run that resolves its configuration
    and resources and loads grammar and model, [generate_with_grammar] is
    called with the text of the file as its prompt, whatever positional
    words follow on the command line and whatever standard input holds;
    the run then goes on as [main] does after that call: it ends with the
    exception of the call, or writes the value the call returns. *)
Theorem X13_ggrama_input_file_replaces_the_prompt `{Runtime}
    env argv w f text llm template grammar words typed :
  given (input_file argv) = Some f ->
  read_text (files w) f = Ok text ->
  ggrama_ready env argv w llm template grammar ->
  Ggrama.main (with_stdin env typed) (with_prompt argv words) w =
    (value ← pure (Ggrama.generate_with_grammar llm (VStr template) (VStr text)
                     grammar);
     Ggrama.write_result argv value;;
     mret 0) w.
Proof.
  intros Hf Htext (config0 & config & sel & model_path & schema & Hconfig0
                   & Hconfig & Hsel & Hres & Hschema & Hgrammar & Hllm).
  unfold Ggrama.main, Ggrama.parse_args in *.
  cbn [config_file input_file output_file with_prompt].
  change (Ggrama.Config (with_stdin env typed)) with (Ggrama.Config env).
  rewrite (prog_bind_reading _ _ _ _ Hconfig0).
  rewrite (prog_bind_reading _ _ _ _ Hconfig).
  change (Ggrama.overrides (with_prompt argv words) config)
    with (Ggrama.overrides argv config).
  rewrite prog_bind_pure, Hsel, Hf.
  rewrite (prog_bind_reading _ _ _ _ Htext).
  rewrite (prog_bind_reading _ _ _ _ Hres). cbn beta iota.
  rewrite Hschema. cbn [negb].
  rewrite prog_bind_pure, Hgrammar, prog_bind_pure, Hllm.
  reflexivity.
Qed.

Lemma X13_ggrama_input_file_replaces_the_prompt_witness :
  Ggrama.main (H := Demo.rt_echo) (with_stdin Demo.env "from stdin")
    (with_prompt Demo.args_prompt_file ["other"; "words"])
    (Demo.world_of Demo.fs_prompt_file)
  = (Ok 0,
     {| files := Demo.fs_prompt_file;
        stdout := [Demo.dq ++ "Say: hi" ++ Demo.dq];
        log := [] |}).
Proof.
  apply (X13_ggrama_input_file_replaces_the_prompt (H := Demo.rt_echo) Demo.env
           Demo.args_prompt_file (Demo.world_of Demo.fs_prompt_file)
           "/in/prompt.txt" "hi" "/m/m.gguf" "Say: {0}{1}"
           (VDict [("type", VStr "object")]) ["other"; "words"] "from stdin").
  - run.
  - run.
  - exists Ggrama.defaults, Ggrama.defaults.
    eexists. exists "/m/m.gguf", (VDict [("type", VStr "object")]).
    repeat split; run.
Defined.

(** X14.  When a run of ggen gets as far as the generation call and the
    answer of the model parses to [value], the run writes [value] and
    nothing else.  With [-o out], when [open(out, 'w')] succeeds ([out] is
    a regular file, or is new and lies in an existing directory), [out]
    holds [json.dump(value)] afterwards and the run returns 0; when the
    call raises ([IsADirectoryError] for a directory, [FileNotFoundError]
    or [NotADirectoryError] when the directory of a new file is missing or
    is not a directory), the run ends with that exception and nothing
    changes.  Without [-o], [json.dumps(value, indent=4)] is printed and
    the run returns 0.  The output path is taken to be a [plain_path]. *)
Theorem X14_ggen_writes_the_parsed_answer `{Runtime} env argv w llm template
    prompt input_data grammar value :
  reaches_generation env argv w llm template prompt input_data grammar ->
  Ggen.generate_with_grammar llm (VStr template) (VStr prompt) (VStr input_data)
    grammar = Ok value ->
  output_is_plain argv ->
  Ggen.main env argv w = after_writing argv value w.
Proof.
  intros Hreach Hvalue Hplain.
  rewrite (ggen_main_from_generation _ _ _ _ _ _ _ _ Hreach), Hvalue.
  unfold Ggen.write_result, after_writing, output_is_plain in *.
  change (output_file (Ggen.parse_args argv)) with (output_file argv).
  destruct (given (output_file argv)) as [out|]; [|reflexivity].
  unfold write_file, write_text, open_w.
  rewrite (plain_path_not_empty _ Hplain), Hplain. cbn [negb].
  destruct (files w !! out) as [[content|]|]; try reflexivity.
  cbn zeta. destruct (create_entry (files w) out) as [[]|e]; reflexivity.
Qed.

Lemma X14_ggen_writes_the_parsed_answer_witness :
  Ggen.main (H := Demo.rt) Demo.env Demo.args_ask_out (Demo.world_of Demo.fs_out)
  = (Ok 0,
     {| files := <["/out/result.json" := File Demo.doc_answer]> Demo.fs_out;
        stdout := [];
        log := [] |}).
Proof.
  apply (X14_ggen_writes_the_parsed_answer (H := Demo.rt) Demo.env Demo.args_ask_out
           (Demo.world_of Demo.fs_out) "/usr/share/ggrama/models/m.gguf"
           Demo.template_qa "2+2=" "" (VDict [("type", VStr "object")])
           (VDict [("answer", VStr "4")])).
  - exists Demo.config_machine, Demo.config_ask, Demo.sel_ask,
      "/usr/share/ggrama/models/m.gguf", (VDict [("type", VStr "object")]).
    repeat split; run.
  - run.
  - run.
Defined.

(** The same run on the machine without [/out], with an output path below
    a regular file, and with an output path that is a directory: each
    raises and changes nothing. *)
Lemma ggen_main_output_directory_missing :
  Ggen.main (H := Demo.rt) Demo.env Demo.args_ask_out (Demo.world_of Demo.fs_machine)
  = (Raise (FileNotFoundError [Lit "/out/result.json"]), Demo.world_of Demo.fs_machine).
Proof. run. Qed.

Lemma ggen_main_output_under_a_file :
  Ggen.main (H := Demo.rt) Demo.env Demo.args_ask_under_file
    (Demo.world_of Demo.fs_machine)
  = (Raise (NotADirectoryError "/c/names.json/result.json"),
     Demo.world_of Demo.fs_machine).
Proof. run. Qed.

Lemma ggen_main_output_is_a_directory :
  Ggen.main (H := Demo.rt) Demo.env Demo.args_ask_into_dir
    (Demo.world_of Demo.fs_machine)
  = (Raise (IsADirectoryError "/opt/models"), Demo.world_of Demo.fs_machine).
Proof. run. Qed.

(** ** load_schema: a bare file that is not JSON *)

(** X15.  The [.gbnf] lookup is a fallback for a missing bare file only,
    not for one that fails to parse: when the first directory holding a
    schema file holds the bare name and its text is not valid JSON, both
    [load_schema] functions raise [JSONDecodeError], whether or not a
    [.gbnf] file lies beside it or further down the list. *)
Theorem X15_bare_schema_file_must_be_json `{Runtime}
    fs pre dpre v d post name text :
  Forall2 names_dir pre dpre ->
  Forall (holds_no_schema fs name) dpre ->
  names_dir v d ->
  fs !! joinpath d name = Some (File text) ->
  json_loads text = None ->
  Ggen.load_schema fs (VList (pre ++ v :: post)) (VStr name) = Raise JSONDecodeError
  /\ Ggrama.load_schema fs (VList (pre ++ v :: post)) (VStr name) = Raise JSONDecodeError.
Proof.
  intros Hpre Hno Hv Hfile Hbad.
  unfold Ggen.load_schema, Ggrama.load_schema.
  cbn [is_none py_iter mbind result_bind].
  rewrite (ggen_schema_skip _ _ _ _ _ _ Hpre Hno),
          (ggrama_schema_skip _ _ _ _ _ _ Hpre Hno),
          (ggen_schema_step _ _ _ _ _ _ Hv), (ggrama_schema_step _ _ _ _ _ _ Hv).
  unfold path_exists, read_text, json_load. rewrite Hfile.
  cbn [mbind result_bind]. rewrite Hbad. split; reflexivity.
Qed.

Lemma X15_bare_schema_file_must_be_json_witness :
  Ggen.load_schema (H := Demo.rt) Demo.fs_grammar_as_bare
    (VList ([] ++ VStr "/g" :: [])) (VStr "answer") = Raise JSONDecodeError
  /\ Ggrama.load_schema (H := Demo.rt) Demo.fs_grammar_as_bare
    (VList ([] ++ VStr "/g" :: [])) (VStr "answer") = Raise JSONDecodeError.
Proof.
  assert (Hpre : Forall2 names_dir [] []) by constructor.
  assert (Hno : Forall (holds_no_schema Demo.fs_grammar_as_bare "answer") [])
    by constructor.
  exact (X15_bare_schema_file_must_be_json (H := Demo.rt) Demo.fs_grammar_as_bare
           [] [] (VStr "/g") "/g" [] "answer" Demo.gbnf_text
           Hpre Hno (names_dir_str "/g") eq_refl eq_refl).
Defined.
